(** * Contract assistant backend (src/backend/server.js)

    A shallow embedding of the Express handlers of the contract
    management chatbot: the status engine [checkContractStatus], the
    contract store handlers, the alert generator, the search handler, the
    chat handler with its briefing, and the chat session store.

    Modelling conventions.
    - A JSON value that the handlers look into is a scalar: null, a
      boolean, a number or a string.  Numbers are integers ([Z]); the
      handlers only test numbers against zero, compare identifiers and do
      arithmetic on whole milliseconds.
    - A JavaScript object is a finite map from property names to values.
      Reading an absent property gives [None] (JavaScript's undefined);
      storing undefined under a name leaves the name absent, which is what
      JSON serialisation of the object shows.
    - The two JSON files are the state.  Reads succeed; whether the write
      of a request succeeds is an input of the handler ([wr]).
    - Every handler reads the clock as one instant [now] (milliseconds
      since the epoch); the alert handler reads it again for the
      days_remaining that it shows, which is a second instant [today].
    - A number stands for a binary64 value that is an integer; the one
      addition of the source, on identifiers, rounds as binary64 does.
    - Built-ins of the JavaScript host that the source calls (Date
      parsing, parseInt, toLowerCase, ...) are the fields of the class
      [Host]; [node_host] is a reference instance used in the examples. *)

From Stdlib Require Import ZArith Lia Ascii.
From stdpp Require Import base option list strings gmap pretty.

Open Scope Z_scope.

(** ** JavaScript values *)

Module JS.

Inductive value :=
| VNull
| VBool (b : bool)
| VNum (n : Z)
| VStr (s : string).

#[global] Instance value_eq_dec : EqDecision value.
Proof. solve_decision. Defined.

Abbreviation obj := (gmap string value).

(** What a handler can throw. *)
Inductive exn :=
| TypeError        (* a property of undefined, or a call of a non-function *)
| FetchFailed      (* fetch rejected: the endpoint is unreachable *)
| BadReplyBody     (* the reply is not JSON *)
| OllamaApiError.  (* new Error('Ollama API error. ...') *)

Inductive result (A : Type) :=
| Return (a : A)
| Throw (e : exn).
Arguments Return {A} a.
Arguments Throw {A} e.

(** Sequencing: a throw skips the rest of the try block. *)
Definition bind {A B} (m : result A) (f : A → result B) : result B :=
  match m with Return a => f a | Throw e => Throw e end.

Notation "'let!' x := m 'in' k" := (bind m (λ x, k))
  (at level 10, x name, m at level 100, k at level 200).

(** ToBoolean, on the result of a property read. *)
Definition truthy (v : option value) : bool :=
  match v with
  | None => false
  | Some VNull => false
  | Some (VBool b) => b
  | Some (VNum n) => negb (n =? 0)
  | Some (VStr s) => negb (String.eqb s "")
  end.

(** [x || d] where [d] is a defined value. *)
Definition or_else (x : option value) (d : value) : value :=
  match x with
  | Some v => if truthy x then v else d
  | None => d
  end.

(** An object literal's [k: x]: undefined leaves no trace in JSON. *)
Definition set_prop (k : string) (x : option value) (o : obj) : obj :=
  match x with
  | Some v => <[k := v]> o
  | None => o
  end.

(** Comparisons with a number that may be NaN ([None]): false on NaN. *)
Definition num_lt (a : option Z) (b : Z) : bool :=
  match a with Some x => x <? b | None => false end.
Definition num_le (a : option Z) (b : Z) : bool :=
  match a with Some x => x <=? b | None => false end.

(** [v === n] for a number [n] that may be NaN. *)
Definition strict_eq_num (v : option value) (n : option Z) : bool :=
  match v, n with
  | Some (VNum a), Some b => a =? b
  | _, _ => false
  end.

(** [v === s] for a string literal [s]. *)
Definition strict_eq_str (v : option value) (s : string) : bool :=
  match v with
  | Some (VStr a) => String.eqb a s
  | _ => false
  end.

(** ToString, as a template literal applies it. *)
Definition ToString (v : option value) : string :=
  match v with
  | None => "undefined"
  | Some VNull => "null"
  | Some (VBool true) => "true"
  | Some (VBool false) => "false"
  | Some (VNum n) => pretty n
  | Some (VStr s) => s
  end.

(** [String.prototype.includes]: [t] occurs in [s]. *)
Fixpoint includes (s t : string) : bool :=
  String.prefix t s ||
  match s with
  | EmptyString => false
  | String _ s' => includes s' t
  end.

(** The names every object inherits from Object.prototype.  A read of
    one of them on a parsed JSON object that has no such property of its
    own yields the inherited function (or, for __proto__, the prototype
    object): a truthy value that is not an array. *)
Definition Object_prototype_names : list string :=
  [ "constructor"; "__defineGetter__"; "__defineSetter__"; "hasOwnProperty";
    "__lookupGetter__"; "__lookupSetter__"; "isPrototypeOf";
    "propertyIsEnumerable"; "toString"; "valueOf"; "__proto__";
    "toLocaleString" ].

(** The built-ins of the host that the source calls.  [None] is NaN. *)
Class Host := {
  Date_parse : string → option Z;       (* Date.parse, milliseconds *)
  parseInt : string → option Z;
  StringToNumber : string → option Z;   (* ToNumber on a string *)
  toLowerCase : string → string;
  toISOString : Z → string;             (* new Date(t).toISOString() *)
  NumberFormat_INR : value → string;    (* Intl.NumberFormat('en-IN', ...).format *)
}.

Section Coercions.
Context `{Host}.

(** The largest time value of a Date. *)
Definition MAX_TIME : Z := 8640000000000000.

(** The time value of [new Date(v)]; [None] is an Invalid Date. *)
Definition new_Date (v : option value) : option Z :=
  match v with
  | None => None
  | Some VNull => Some 0
  | Some (VBool b) => Some (Z.b2z b)
  | Some (VNum n) => if Z.abs n <=? MAX_TIME then Some n else None
  | Some (VStr s) => Date_parse s
  end.

(** ToNumber, as Math.max applies it. *)
Definition ToNumber (v : option value) : option Z :=
  match v with
  | None => None
  | Some VNull => Some 0
  | Some (VBool b) => Some (Z.b2z b)
  | Some (VNum n) => Some n
  | Some (VStr s) => StringToNumber s
  end.

(** [Math.max(x, ...xs)]: NaN as soon as one argument is NaN. *)
Fixpoint Math_max (x : option Z) (xs : list (option Z)) : option Z :=
  match xs with
  | [] => x
  | y :: ys =>
      match x, Math_max y ys with
      | Some a, Some b => Some (Z.max a b)
      | _, _ => None
      end
  end.

(** A number as JSON shows it: NaN and the infinities are written as
    null. *)
Definition json_num (n : option Z) : value :=
  match n with Some k => VNum k | None => VNull end.

(** Below this magnitude every integer is a binary64 number. *)
Definition TWO_53 : Z := 9007199254740992.

(** The binary64 number nearest to the integer [z], ties to the even
    significand; [None] when that is an infinity.  From 2^53 on the
    numbers are 2^e apart, where 2^(52+e) <= |z| < 2^(53+e). *)
Definition binary64_of_Z (z : Z) : option Z :=
  let a := Z.abs z in
  if a <? TWO_53 then Some z
  else
    let e := Z.log2 a - 52 in
    let q := a / 2 ^ e in
    let r := a mod 2 ^ e in
    let half := 2 ^ (e - 1) in
    let q' := if (half <? r) || ((r =? half) && Z.odd q) then q + 1 else q in
    let v := q' * 2 ^ e in
    if 2 ^ 1024 <=? v then None else Some (Z.sgn z * v).

(** [x + 1] on a number that may be NaN: the sum, rounded. *)
Definition Number_succ (x : option Z) : option Z :=
  match x with
  | Some m => binary64_of_Z (m + 1)
  | None => None
  end.

(** [v.toLowerCase()]: only a string has the method. *)
Definition call_toLowerCase (v : option value) : result string :=
  match v with
  | Some (VStr s) => Return (toLowerCase s)
  | _ => Throw TypeError
  end.

End Coercions.

End JS.
Import JS.

(** ** The status engine *)

Section Server.
Context `{Host}.

Definition MS_PER_DAY : Z := 1000 * 60 * 60 * 24.

(** [Math.floor((endDate - today) / (1000 * 60 * 60 * 24))]. *)
Definition daysRemaining (now : Z) (contract : obj) : option Z :=
  endDate ← new_Date (contract !! "end_date");
  Some ((endDate - now) / MS_PER_DAY).

Definition checkContractStatus (now : Z) (contract : obj) : obj :=
  let d := daysRemaining now contract in
  if num_lt d 0 then <["status" := VStr "expired"]> contract
  else if num_le d 30 then <["status" := VStr "expiring"]> contract
  else <["status" := VStr "active"]> contract.

(** [formatINR(amount)]. *)
Definition formatINR (amount : option value) : string :=
  match amount with
  | Some v =>
      if negb (truthy amount) || strict_eq_num amount (Some 0)
      then "Not specified"
      else NumberFormat_INR v
  | None => "Not specified"
  end.

(** ** The persisted state and the responses *)

(** The parsed contents of contracts.json and chat_history.json. *)
Record files := {
  CONTRACTS_FILE : list obj;
  CHAT_HISTORY_FILE : gmap string (list obj);
}.

(** [readJSON(CONTRACTS_FILE)] is the projection; [writeJSON] reports
    whether it wrote, and leaves the file as it was when it did not. *)
Definition writeJSON_contracts (wr : bool) (data : list obj) (st : files)
  : bool * files :=
  if wr
  then (true, {| CONTRACTS_FILE := data; CHAT_HISTORY_FILE := CHAT_HISTORY_FILE st |})
  else (false, st).

Definition writeJSON_chat (wr : bool) (data : gmap string (list obj)) (st : files)
  : bool * files :=
  if wr
  then (true, {| CONTRACTS_FILE := CONTRACTS_FILE st; CHAT_HISTORY_FILE := data |})
  else (false, st).

(** The JSON body of a success response, by route. *)
Inductive payload :=
| ContractsP (contracts : list obj)
| CreatedP (contract : obj)     (* message: 'Contract created successfully', success: true *)
| ContractP (contract : obj)
| UpdatedP (contract : obj)     (* message: 'Contract updated' *)
| DeletedP                      (* message: 'Contract deleted' *)
| ResultsP (results : list obj) (count : nat)
| AlertsP (alerts : list obj) (count : nat)
| ChatP (response : option value) (chat_id : value) (timestamp : string)
| HistoryP (chat_id : string) (messages : option (list obj)).

Inductive response :=
| Ok (p : payload)                  (* res.json(p), status 200 *)
| Err (code : Z) (error : string) (details : option exn)
                                    (* res.status(code).json({ error, details }) *)
| Caught (e : exn).                 (* res.status(500).json({ error: e.message }) *)

(** The catch branch of POST /api/chat answers 500 with this text as
    [error] and the message of the exception as [details]. *)
Definition OLLAMA_HINT : string :=
  "Error communicating with Ollama. Make sure Ollama is running with: ollama serve".

Definition status_code (r : response) : Z :=
  match r with
  | Ok _ => 200
  | Err code _ _ => code
  | Caught _ => 500
  end.

(** ** Contract store handlers *)

(** GET /api/contracts *)
Definition get_contracts (now : Z) (st : files) : response * files :=
  let contracts := CONTRACTS_FILE st in
  let updatedContracts := map (checkContractStatus now) contracts in
  (Ok (ContractsP updatedContracts), st).

(** [!title || !company || !client_name || !start_date || !end_date] *)
Definition missing_required (body : obj) : bool :=
  negb (truthy (body !! "title")) ||
  negb (truthy (body !! "company")) ||
  negb (truthy (body !! "client_name")) ||
  negb (truthy (body !! "start_date")) ||
  negb (truthy (body !! "end_date")).

(** [contracts.length > 0 ? Math.max(...contracts.map(c => c.id)) + 1 : 1] *)
Definition next_id (contracts : list obj) : option Z :=
  match map (λ c : obj, ToNumber (c !! "id")) contracts with
  | [] => Some 1
  | x :: xs => Number_succ (Math_max x xs)
  end.

Definition newContract (now : Z) (body : obj) (contracts : list obj) : obj :=
  <["status" := VStr "active"]>
  (<["created_at" := VStr (toISOString now)]>
  (<["notes" := or_else (body !! "notes") (VStr "")]>
  (<["salary" := or_else (body !! "salary") VNull]>
  (set_prop "end_date" (body !! "end_date")
  (set_prop "start_date" (body !! "start_date")
  (<["contract_type" := or_else (body !! "contract_type") (VStr "individual")]>
  (set_prop "client_name" (body !! "client_name")
  (set_prop "company" (body !! "company")
  (set_prop "title" (body !! "title")
  (<["id" := json_num (next_id contracts)]> ∅)))))))))).

(** POST /api/contracts *)
Definition post_contracts (now : Z) (wr : bool) (body : obj) (st : files)
  : response * files :=
  if missing_required body then (Err 400 "Missing required fields" None, st)
  else
    let contracts := CONTRACTS_FILE st in
    let contractWithStatus :=
      checkContractStatus now (newContract now body contracts) in
    let '(success, st') :=
      writeJSON_contracts wr (contracts ++ [contractWithStatus]) st in
    if success then (Ok (CreatedP contractWithStatus), st')
    else (Err 500 "Failed to save contract" None, st').

(** [c => c.id === parseInt(req.params.id)], for find and findIndex. *)
Definition has_id (id : string) (c : obj) : bool :=
  strict_eq_num (c !! "id") (parseInt id).

(** GET /api/contracts/:id *)
Definition get_contract (now : Z) (id : string) (st : files) : response * files :=
  let contracts := CONTRACTS_FILE st in
  match list_find (λ c, has_id id c = true) contracts with
  | None => (Err 404 "Contract not found" None, st)
  | Some (_, contract) => (Ok (ContractP (checkContractStatus now contract)), st)
  end.

(** PUT /api/contracts/:id.  [{ ...contracts[index], ...req.body }] is the
    union in which the body's properties win.  The outcome of the write
    is not looked at. *)
Definition put_contract (now : Z) (wr : bool) (id : string) (body : obj) (st : files)
  : response * files :=
  let contracts := CONTRACTS_FILE st in
  match list_find (λ c, has_id id c = true) contracts with
  | None => (Err 404 "Contract not found" None, st)
  | Some (index, existing) =>
      let updatedContract := checkContractStatus now (body ∪ existing) in
      let contracts' := <[index := updatedContract]> contracts in
      (Ok (UpdatedP updatedContract), (writeJSON_contracts wr contracts' st).2)
  end.

(** DELETE /api/contracts/:id *)
Definition delete_contract (wr : bool) (id : string) (st : files) : response * files :=
  let contracts := CONTRACTS_FILE st in
  let filtered := filter (λ c, has_id id c = false) contracts in
  (Ok DeletedP, (writeJSON_contracts wr filtered st).2).

(** ** Search *)

(** [Array.prototype.filter] with a callback that may throw. *)
Fixpoint Array_filter {A} (p : A → result bool) (l : list A) : result (list A) :=
  match l with
  | [] => Return []
  | x :: xs =>
      let! b := p x in
      let! r := Array_filter p xs in
      Return (if b then x :: r else r)
  end.

(** [c[k].toLowerCase().includes(searchTerm)] *)
Definition field_includes (c : obj) (k : string) (searchTerm : string) : result bool :=
  let! s := call_toLowerCase (c !! k) in Return (includes s searchTerm).

(** [a || b]: [b] is evaluated only when [a] is false. *)
Definition or_lazy (a b : result bool) : result bool :=
  let! x := a in if x then Return true else b.

Definition search_match (searchTerm : string) (c : obj) : result bool :=
  or_lazy (field_includes c "title" searchTerm)
    (or_lazy (field_includes c "company" searchTerm)
      (or_lazy (field_includes c "client_name" searchTerm)
        (field_includes c "status" searchTerm))).

(** POST /api/search *)
Definition post_search (body : obj) (st : files) : response * files :=
  let contracts := CONTRACTS_FILE st in
  match let! searchTerm := call_toLowerCase (body !! "query") in
        Array_filter (search_match searchTerm) contracts with
  | Return results => (Ok (ResultsP results (length results)), st)
  | Throw e => (Caught e, st)
  end.

(** ** Alerts *)

(** The object pushed for a contract; [contract] is the object that
    [checkContractStatus] has just updated in place (the source reads it
    under both of its names).  [today] is the clock as the callback
    reads it again, after the status is derived, for the days. *)
Definition alert_of (today : Z) (contract : obj) : obj :=
  <["message" := VStr ("Contract '" +:+ ToString (contract !! "title") +:+
                        "' is " +:+ ToString (contract !! "status"))]>
  (set_prop "status" (contract !! "status")
  (<["days_remaining" := json_num (daysRemaining today contract)]>
  (set_prop "end_date" (contract !! "end_date")
  (set_prop "company" (contract !! "company")
  (set_prop "title" (contract !! "title")
  (set_prop "contract_id" (contract !! "id") ∅)))))).

(** The body of the forEach callback, on the array built so far: the
    status is derived at [now], the days are counted at [today]. *)
Definition alerts_step (now today : Z) (alerts : list obj) (contract : obj)
  : list obj :=
  let updatedContract := checkContractStatus now contract in
  if strict_eq_str (updatedContract !! "status") "expiring" ||
     strict_eq_str (updatedContract !! "status") "expired"
  then alerts ++ [alert_of today updatedContract]
  else alerts.

(** GET /api/alerts *)
Definition get_alerts (now today : Z) (st : files) : response * files :=
  let contracts := CONTRACTS_FILE st in
  let alerts := fold_left (alerts_step now today) contracts [] in
  (Ok (AlertsP alerts (length alerts)), st).

(** ** The briefing *)

Definition nl : string := String (Ascii.ascii_of_nat 10) EmptyString.

(** What the forEach callback adds to [contractSummary] for [c]. *)
Definition contract_block (c : obj) : string :=
  "Contract ID: " +:+ ToString (c !! "id") +:+ nl +:+
  "  - Title/Position: " +:+ ToString (c !! "title") +:+ nl +:+
  "  - Company: " +:+ ToString (c !! "company") +:+ nl +:+
  "  - Client Name: " +:+ ToString (c !! "client_name") +:+ nl +:+
  "  - Contract Type: " +:+ ToString (c !! "contract_type") +:+ nl +:+
  "  - Status: " +:+ ToString (c !! "status") +:+ nl +:+
  "  - Start Date: " +:+ ToString (c !! "start_date") +:+ nl +:+
  "  - End Date: " +:+ ToString (c !! "end_date") +:+ nl +:+
  "  - Salary: " +:+ formatINR (c !! "salary") +:+ nl +:+
  (if truthy (c !! "notes")
   then "  - Notes: " +:+ ToString (c !! "notes") +:+ nl
   else "") +:+
  nl.

Definition summary_head (contracts : list obj) : string :=
  "You are a helpful contract management assistant. You have access to detailed contract information including salaries." +:+ nl +:+ nl +:+
  "Current contracts in system (Total: " +:+
  pretty (Z.of_nat (length contracts)) +:+ "):" +:+ nl +:+ nl.

Definition summary_instructions : string :=
  nl +:+ "Instructions:" +:+ nl +:+
  "- When users ask about their salary, provide the exact amount from the contract data" +:+ nl +:+
  "- Match users by their name (client_name) or position (title)" +:+ nl +:+
  "- Be specific and include all relevant details like salary, dates, and status" +:+ nl +:+
  "- If asked about status, mention days remaining for expiring contracts" +:+ nl +:+
  "- Be conversational, friendly, and helpful" +:+ nl +:+
  "- Always include salary amounts when discussing contracts" +:+ nl +:+
  "- Format responses clearly with contract details" +:+ nl +:+ nl.

(** The system prompt built by POST /api/chat. *)
Definition contractSummary (contracts : list obj) : string :=
  fold_left (λ acc c, acc +:+ contract_block c) contracts (summary_head contracts)
  +:+ summary_instructions.

(** ** The inference call *)

(** What the reply of the Ollama endpoint holds. *)
Inductive reply_body :=
| NotJson                        (* response.json() rejects *)
| NoMessage                      (* JSON with no [message] object *)
| Content (v : option value).    (* [ollamaData.message.content] *)

(** How the fetch ends. *)
Inductive fetch_outcome :=
| Rejected                                      (* endpoint unreachable *)
| Responded (ok : bool) (data : reply_body).    (* [ok]: a 2xx status *)

(** The external service: from the system prompt and the user message to
    the outcome of the request. *)
Definition inference := string → option value → fetch_outcome.

(** Lines 319-337: the fetch, the status test and the reply's content. *)
Definition ask (ollama : inference) (briefing : string) (message : option value)
  : result (option value) :=
  match ollama briefing message with
  | Rejected => Throw FetchFailed
  | Responded ok data =>
      if negb ok then Throw OllamaApiError
      else match data with
           | NotJson => Throw BadReplyBody
           | NoMessage => Throw TypeError
           | Content v => Return v
           end
  end.

(** ** The chat session store *)

(** What [chatHistory[k]] reads on the parsed chat_history.json. *)
Inductive prop_read :=
| Own (history : list obj)   (* a property of the object itself *)
| Inherited                  (* a name of Object.prototype *)
| Absent.                    (* undefined *)

Definition read_history (chatHistory : gmap string (list obj)) (k : string) : prop_read :=
  match chatHistory !! k with
  | Some h => Own h
  | None => if bool_decide (k ∈ Object_prototype_names) then Inherited else Absent
  end.

(** [{ timestamp: new Date().toISOString(), user: message, bot: botResponse }] *)
Definition exchange_of (now : Z) (message botResponse : option value) : obj :=
  set_prop "bot" botResponse
  (set_prop "user" message
  (<["timestamp" := VStr (toISOString now)]> ∅)).

(** Lines 343-351: create the session if the read is falsy, then push.
    An array, even an empty one, is truthy; so is an inherited value,
    which has no [push]. *)
Definition append_exchange (k : string) (exchange : obj)
  (chatHistory : gmap string (list obj)) : result (gmap string (list obj)) :=
  match read_history chatHistory k with
  | Absent => Return (<[k := [exchange]]> chatHistory)
  | Own history => Return (<[k := history ++ [exchange]]> chatHistory)
  | Inherited => Throw TypeError
  end.

(** POST /api/chat.  The outcome of the write is not looked at. *)
Definition post_chat (now : Z) (wr : bool) (ollama : inference) (body : obj)
  (st : files) : response * files :=
  let message := body !! "message" in
  let chat_id := body !! "chat_id" in
  let contracts := CONTRACTS_FILE st in
  match
    let! botResponse := ask ollama (contractSummary contracts) message in
    let chatHistory := CHAT_HISTORY_FILE st in
    let currentChatId := or_else chat_id (VStr (pretty now)) in
    let! chatHistory' :=
      append_exchange (ToString (Some currentChatId))
        (exchange_of now message botResponse) chatHistory in
    Return (botResponse, currentChatId, chatHistory')
  with
  | Return (botResponse, currentChatId, chatHistory') =>
      (Ok (ChatP botResponse currentChatId (toISOString now)),
       (writeJSON_chat wr chatHistory' st).2)
  | Throw e => (Err 500 OLLAMA_HINT (Some e), st)
  end.

(** GET /api/chat/history/:chat_id.  For an inherited name the handler
    answers 200 and [messages] is not a list of exchanges ([None]). *)
Definition get_chat_history (chat_id : string) (st : files) : response * files :=
  match read_history (CHAT_HISTORY_FILE st) chat_id with
  | Absent => (Err 404 "Chat history not found" None, st)
  | Own history => (Ok (HistoryP chat_id (Some history)), st)
  | Inherited => (Ok (HistoryP chat_id None), st)
  end.

(** ** Vocabulary of the statements *)

(** The names destructured from the body by the validation of
    POST /api/contracts. *)
Definition required_fields : list string :=
  ["title"; "company"; "client_name"; "start_date"; "end_date"].

(** The properties that the search callback looks into. *)
Definition searched_fields : list string :=
  ["title"; "company"; "client_name"; "status"].

(** The status that [checkContractStatus] derives at [now]. *)
Definition derived_status (now : Z) (contract : obj) : option value :=
  checkContractStatus now contract !! "status".

(** A contract for which an alert is due at [now]. *)
Definition due (now : Z) (contract : obj) : Prop :=
  derived_status now contract = Some (VStr "expiring") ∨
  derived_status now contract = Some (VStr "expired").

#[global] Instance due_dec now contract : Decision (due now contract).
Proof. unfold due. apply _. Defined.

(** [t] is a substring of [s]. *)
Definition occurs_in (t s : string) : Prop :=
  ∃ pre post, s = pre +:+ t +:+ post.

(** The term is, up to case, a substring of one of the searched fields. *)
Definition search_hit (term : string) (c : obj) : Prop :=
  ∃ k s, k ∈ searched_fields ∧ c !! k = Some (VStr s) ∧
         occurs_in (toLowerCase term) (toLowerCase s).

(** The UTC day, counted from the epoch, that holds the instant [t]. *)
Definition utc_day (t : Z) : Z := t / MS_PER_DAY.

(** The identifiers of the stored contracts, in store order. *)
Definition ids_of (contracts : list obj) : list (option value) :=
  map (λ c : obj, c !! "id") contracts.

(** Every stored identifier is a number. *)
Definition numeric_ids (contracts : list obj) : Prop :=
  ∀ c, c ∈ contracts → ∃ n, c !! "id" = Some (VNum n).

(** Every stored identifier is a safe integer: a number of magnitude
    below 2^53, as Number.isSafeInteger tests. *)
Definition safe_ids (contracts : list obj) : Prop :=
  ∀ c, c ∈ contracts → ∃ n, c !! "id" = Some (VNum n) ∧ Z.abs n < TWO_53.

(** The session name that POST /api/chat uses for a body:
    [chat_id || Date.now().toString()], as a property name. *)
Definition session_name (now : Z) (body : obj) : string :=
  ToString (Some (or_else (body !! "chat_id") (VStr (pretty now)))).

End Server.

(** ** Start-up: the two files on disk *)

(** A file as [initializeFiles] and [readJSON] see it. *)
Inductive file (A : Type) :=
| Missing           (* fs.access and fs.readFile throw *)
| Unreadable        (* empty, blank, or not JSON *)
| Json (data : A).  (* JSON.parse returns [data] *)
Arguments Missing {A}.
Arguments Unreadable {A}.
Arguments Json {A} data.

Record disk := {
  contracts_json : file (list obj);
  chat_history_json : file (gmap string (list obj));
}.

(** [readJSON(filename)]: the parsed contents, or the default of the
    file when the read or the parse fails or the text is blank. *)
Definition readJSON {A} (default : A) (f : file A) : A :=
  match f with
  | Json data => data
  | Missing | Unreadable => default
  end.

(** What the handlers read from a disk. *)
Definition read_files (d : disk) : files :=
  {| CONTRACTS_FILE := readJSON [] (contracts_json d);
     CHAT_HISTORY_FILE := readJSON ∅ (chat_history_json d) |}.

(** One inner try/catch of [initializeFiles]: fs.access, and when it
    throws, fs.writeFile of the default text.  [None]: the write throws. *)
Definition ensure_file {A} (w : bool) (default : A) (f : file A) : option (file A) :=
  match f with
  | Missing => if w then Some (Json default) else None
  | Unreadable | Json _ => Some f
  end.

(** [initializeFiles()]; [w1] and [w2] tell whether a write of
    contracts.json, of chat_history.json, would succeed.  A throw of the
    first write reaches the outer catch, which skips the second file. *)
Definition initializeFiles (w1 w2 : bool) (d : disk) : disk :=
  match ensure_file w1 [] (contracts_json d) with
  | None => d
  | Some c =>
      match ensure_file w2 ∅ (chat_history_json d) with
      | None => {| contracts_json := c; chat_history_json := chat_history_json d |}
      | Some h => {| contracts_json := c; chat_history_json := h |}
      end
  end.

(** ** The presentation layer (App component) *)

(** [getStatusClass(status)]: a switch on the three status strings. *)
Definition getStatusClass (status : option value) : string :=
  if strict_eq_str status "active" then "status-active"
  else if strict_eq_str status "expiring" then "status-expiring"
  else if strict_eq_str status "expired" then "status-expired"
  else "".

(** The messages that [loadChatHistory] shows for a stored history:
    the welcome message, then for each exchange the user's message and
    the reply. *)
Definition formattedMessages (welcome : obj) (messages : list obj) : list obj :=
  welcome ::
  mjoin (map (λ msg : obj,
          [ set_prop "content" (msg !! "user") {[ "role" := VStr "user" ]};
            set_prop "content" (msg !! "bot") {[ "role" := VStr "bot" ]} ])
        messages).

(** ** A reference host

    Enough of Node's built-ins to run the handlers on concrete requests:
    date-only ISO strings, decimal and hexadecimal parseInt, ASCII case
    folding, ISO timestamps for four-digit years and the en-IN grouping
    of rupee amounts.  The general theorems below hold for every host. *)

Module Node.

Definition digit (c : ascii) : option Z :=
  let n := Z.of_nat (Ascii.nat_of_ascii c) in
  if (48 <=? n) && (n <=? 57) then Some (n - 48) else None.

Definition hex_digit (c : ascii) : option Z :=
  let n := Z.of_nat (Ascii.nat_of_ascii c) in
  if (48 <=? n) && (n <=? 57) then Some (n - 48)
  else if (97 <=? n) && (n <=? 102) then Some (n - 87)
  else if (65 <=? n) && (n <=? 70) then Some (n - 55)
  else None.

(** The number written by a string of decimal digits only. *)
Fixpoint digits (acc : Z) (s : string) : option Z :=
  match s with
  | EmptyString => Some acc
  | String c s' => d ← digit c; digits (acc * 10 + d) s'
  end.

(** The number written by the longest prefix of digits; [None] if empty. *)
Fixpoint digit_prefix (dig : ascii → option Z) (radix : Z) (acc : option Z)
  (s : string) : option Z :=
  match s with
  | EmptyString => acc
  | String c s' =>
      match dig c with
      | Some d => digit_prefix dig radix (Some (default 0 acc * radix + d)) s'
      | None => acc
      end
  end.

Definition is_space (c : ascii) : bool :=
  let n := Ascii.nat_of_ascii c in
  bool_decide (n = 32 ∨ (9 ≤ n ∧ n ≤ 13))%nat.

Fixpoint skip_spaces (s : string) : string :=
  match s with
  | String c s' => if is_space c then skip_spaces s' else s
  | EmptyString => s
  end.

Definition unsigned_int (s : string) : option Z :=
  match s with
  | String "0" (String "x" s') | String "0" (String "X" s') =>
      digit_prefix hex_digit 16 None s'
  | _ => digit_prefix digit 10 None s
  end.

Definition node_parseInt (s : string) : option Z :=
  match skip_spaces s with
  | String "-" s' => Z.opp <$> unsigned_int s'
  | String "+" s' => unsigned_int s'
  | s' => unsigned_int s'
  end.

(** ToNumber on the strings that write a decimal integer. *)
Definition node_StringToNumber (s : string) : option Z :=
  match s with
  | EmptyString => Some 0
  | String "-" (String c s') => Z.opp <$> digits 0 (String c s')
  | String "+" (String c s') => digits 0 (String c s')
  | _ => digits 0 s
  end.

Definition lower_ascii (c : ascii) : ascii :=
  let n := Ascii.nat_of_ascii c in
  if bool_decide (65 ≤ n ∧ n ≤ 90)%nat then Ascii.ascii_of_nat (n + 32) else c.

Fixpoint node_toLowerCase (s : string) : string :=
  match s with
  | EmptyString => EmptyString
  | String c s' => String (lower_ascii c) (node_toLowerCase s')
  end.

(** Days from 1970-01-01 to the civil date y-m-d (proleptic Gregorian). *)
Definition days_from_civil (y m d : Z) : Z :=
  let y := if m <=? 2 then y - 1 else y in
  let era := y / 400 in
  let yoe := y - era * 400 in
  let doy := (153 * (if 2 <? m then m - 3 else m + 9) + 2) / 5 + d - 1 in
  let doe := yoe * 365 + yoe / 4 - yoe / 100 + doy in
  era * 146097 + doe - 719468.

Definition civil_from_days (z : Z) : Z * Z * Z :=
  let z := z + 719468 in
  let era := z / 146097 in
  let doe := z - era * 146097 in
  let yoe := (doe - doe / 1460 + doe / 36524 - doe / 146096) / 365 in
  let y := yoe + era * 400 in
  let doy := doe - (365 * yoe + yoe / 4 - yoe / 100) in
  let mp := (5 * doy + 2) / 153 in
  let d := doy - (153 * mp + 2) / 5 + 1 in
  let m := if mp <? 10 then mp + 3 else mp - 9 in
  (if m <=? 2 then y + 1 else y, m, d).

Definition is_leap (y : Z) : bool :=
  ((y mod 4 =? 0) && negb (y mod 100 =? 0)) || (y mod 400 =? 0).

Definition days_in_month (y m : Z) : Z :=
  if m =? 2 then (if is_leap y then 29 else 28)
  else if (m =? 4) || (m =? 6) || (m =? 9) || (m =? 11) then 30
  else 31.

(** Date.parse on the date-only form YYYY-MM-DD, which is UTC midnight of
    that day.  Other strings, and days that are not in the calendar, are
    left unparsed by this instance. *)
Definition node_Date_parse (s : string) : option Z :=
  match s with
  | String y1 (String y2 (String y3 (String y4 (String "-"
      (String m1 (String m2 (String "-" (String d1 (String d2 EmptyString))))))))) =>
      y ← digits 0 (String y1 (String y2 (String y3 (String y4 EmptyString))));
      m ← digits 0 (String m1 (String m2 EmptyString));
      d ← digits 0 (String d1 (String d2 EmptyString));
      if (1 <=? m) && (m <=? 12) && (1 <=? d) && (d <=? days_in_month y m)
      then Some (days_from_civil y m d * 86400000)
      else None
  | _ => None
  end.

(** [n] in decimal, padded with zeros to [w] digits. *)
Definition pad (w : nat) (n : Z) : string :=
  let s := pretty n in
  String.string_of_list_ascii (replicate (w - String.length s) "0"%char) +:+ s.

Definition node_toISOString (t : Z) : string :=
  let '(y, m, d) := civil_from_days (t / 86400000) in
  let ms := t mod 86400000 in
  pad 4 y +:+ "-" +:+ pad 2 m +:+ "-" +:+ pad 2 d +:+ "T" +:+
  pad 2 (ms / 3600000) +:+ ":" +:+ pad 2 (ms / 60000 mod 60) +:+ ":" +:+
  pad 2 (ms / 1000 mod 60) +:+ "." +:+ pad 3 (ms mod 1000) +:+ "Z".

(** Commas every two digits, on the reversed digits above the thousands. *)
Fixpoint group2 (l : list ascii) : list ascii :=
  match l with
  | a :: b :: rest =>
      match rest with
      | [] => [a; b]
      | _ => a :: b :: ","%char :: group2 rest
      end
  | _ => l
  end.

Definition group_en_IN (ds : string) : string :=
  match reverse (String.list_ascii_of_string ds) with
  | a :: b :: c :: ((_ :: _) as rest) =>
      String.string_of_list_ascii (reverse (a :: b :: c :: ","%char :: group2 rest))
  | _ => ds
  end.

Definition node_NumberFormat_INR (v : value) : string :=
  let n := match v with
           | VNull => Some 0
           | VBool b => Some (Z.b2z b)
           | VNum n => Some n
           | VStr s => node_StringToNumber s
           end in
  match n with
  | None => "₹NaN"
  | Some n => (if n <? 0 then "-₹" else "₹") +:+ group_en_IN (pretty (Z.abs n))
  end.

#[export] Instance node_host : Host := {|
  Date_parse := node_Date_parse;
  parseInt := node_parseInt;
  StringToNumber := node_StringToNumber;
  toLowerCase := node_toLowerCase;
  toISOString := node_toISOString;
  NumberFormat_INR := node_NumberFormat_INR;
|}.

End Node.

(** ** Sample data for the worked requests *)

Module Sample.
Import Node.

(** 2026-01-05T09:00:00.000Z and 2026-11-02T12:00:00.000Z. *)
Definition january : Z := 1767603600000.
Definition november : Z := 1793620800000.

(** The body of a creation request. *)
Definition qa_body : obj :=
  {[ "title" := VStr "Quality Assurance"; "company" := VStr "Acme";
     "client_name" := VStr "Asha Rao"; "contract_type" := VStr "individual";
     "start_date" := VStr "2026-01-01"; "end_date" := VStr "2026-06-01";
     "salary" := VNum 500000; "notes" := VStr "" ]}.

Definition undated_body : obj := delete "end_date" qa_body.

(** Two stored contracts; the first was created in January, when it was
    active, and ended in June. *)
Definition qa : obj :=
  {[ "id" := VNum 1; "title" := VStr "Quality Assurance";
     "company" := VStr "Acme"; "client_name" := VStr "Asha Rao";
     "contract_type" := VStr "individual"; "start_date" := VStr "2026-01-01";
     "end_date" := VStr "2026-06-01"; "salary" := VNum 500000;
     "notes" := VStr ""; "created_at" := VStr "2026-01-05T09:00:00.000Z";
     "status" := VStr "active" ]}.

Definition dev : obj :=
  {[ "id" := VNum 2; "title" := VStr "Developer";
     "company" := VStr "Globex"; "client_name" := VStr "Ravi Kumar";
     "contract_type" := VStr "client"; "start_date" := VStr "2026-04-01";
     "end_date" := VStr "2027-03-31"; "salary" := VNum 1200000;
     "notes" := VStr "remote"; "created_at" := VStr "2026-04-01T10:30:00.000Z";
     "status" := VStr "active" ]}.

Definition no_files : files :=
  {| CONTRACTS_FILE := []; CHAT_HISTORY_FILE := ∅ |}.

Definition two_contracts : files :=
  {| CONTRACTS_FILE := [qa; dev]; CHAT_HISTORY_FILE := ∅ |}.

(** A contract that ends on the day of [november], and one that ends 31
    calendar days later. *)
Definition ends_today : obj := <["end_date" := VStr "2026-11-02"]> dev.
Definition ends_in_31_days : obj := <["end_date" := VStr "2026-12-03"]> dev.

(** An inference service that answers, and one that is not running. *)
Definition ollama_up : inference :=
  λ _ _, Responded true (Content (Some (VStr "You have two contracts."))).
Definition ollama_down : inference := λ _ _, Rejected.

End Sample.

(** More sample data, for the requests that leave the usual path: the
    store after a PUT that renamed the identifier of contract 1 to a
    string, and a chat request with no chat_id. *)
Module Scenario.
Import Node Sample.

Definition renaming_body : obj := {[ "id" := VStr "abc" ]}.

Definition renamed : obj :=
  <["status" := VStr "expired"]> (<["id" := VStr "abc"]> qa).

Definition odd_ids : files :=
  {| CONTRACTS_FILE := [renamed; dev]; CHAT_HISTORY_FILE := ∅ |}.

Definition anonymous_chat : obj := {[ "message" := VStr "hi" ]}.





Definition numbered_body : obj := <["title" := VNum 7]> qa_body.

(** A contract that ends at 2026-11-03T00:00:00.000Z, and the
    milliseconds just before and just after that instant. *)
Definition ends_tomorrow : obj := <["end_date" := VStr "2026-11-03"]> dev.

Definition one_contract : files :=
  {| CONTRACTS_FILE := [ends_tomorrow]; CHAT_HISTORY_FILE := ∅ |}.

Definition before_midnight : Z := 1793663999999.
Definition after_midnight : Z := 1793664000001.

End Scenario.

(** Membership of a name in one of the literal lists of names. *)
Ltac in_list :=
  unfold required_fields, searched_fields;
  repeat first [apply list_elem_of_here | apply list_elem_of_further].

(** * Properties of the status engine *)

Section StatusEngine.
Context `{Host}.

Lemma MS_PER_DAY_eq : MS_PER_DAY = 86400000.
Proof. reflexivity. Qed.

(** The quotient of [daysRemaining] is the floor of the exact ratio. *)
Lemma daysRemaining_floor now contract endDate :
  new_Date (contract !! "end_date") = Some endDate →
  ∃ d, daysRemaining now contract = Some d ∧
       d * MS_PER_DAY ≤ endDate - now < (d + 1) * MS_PER_DAY.
Proof.
  intros Hend. exists ((endDate - now) / MS_PER_DAY). split.
  - unfold daysRemaining. by rewrite Hend.
  - rewrite MS_PER_DAY_eq.
    pose proof (Z.div_mod (endDate - now) 86400000 ltac:(lia)) as Hdm.
    pose proof (Z.mod_pos_bound (endDate - now) 86400000 ltac:(lia)) as Hb.
    lia.
Qed.

(** The three branches of [checkContractStatus], by the number of days. *)
Lemma checkContractStatus_cases now contract d :
  daysRemaining now contract = Some d →
  checkContractStatus now contract !! "status" =
    Some (VStr (if d <? 0 then "expired"
                else if d <=? 30 then "expiring" else "active")).
Proof.
  intros Hd. unfold checkContractStatus. rewrite Hd. simpl.
  destruct (d <? 0); [by rewrite lookup_insert_eq|].
  destruct (d <=? 30); by rewrite lookup_insert_eq.
Qed.

(** An end date that is no date leaves both comparisons false. *)
Lemma checkContractStatus_invalid now contract :
  new_Date (contract !! "end_date") = None →
  checkContractStatus now contract !! "status" = Some (VStr "active").
Proof.
  intros Hend. unfold checkContractStatus, daysRemaining. rewrite Hend.
  simpl. by rewrite lookup_insert_eq.
Qed.

(** The status is always one of the three. *)
Lemma checkContractStatus_status now contract :
  ∃ s, checkContractStatus now contract !! "status" = Some (VStr s) ∧
       (s = "expired" ∨ s = "expiring" ∨ s = "active").
Proof.
  unfold checkContractStatus.
  destruct (num_lt _ 0); [|destruct (num_le _ 30)];
    rewrite lookup_insert_eq; eauto.
Qed.

(** Only the status property is written. *)
Lemma checkContractStatus_other now contract k :
  k ≠ "status" → checkContractStatus now contract !! k = contract !! k.
Proof.
  intros Hk. unfold checkContractStatus.
  destruct (num_lt _ 0); [|destruct (num_le _ 30)];
    by rewrite lookup_insert_ne.
Qed.

(** The status depends on the contract through its end date only. *)
Lemma checkContractStatus_end_date now c1 c2 :
  c1 !! "end_date" = c2 !! "end_date" →
  checkContractStatus now c1 !! "status" = checkContractStatus now c2 !! "status".
Proof.
  intros Heq. unfold checkContractStatus, daysRemaining. rewrite Heq.
  destruct (num_lt _ 0); [|destruct (num_le _ 30)];
    by rewrite !lookup_insert_eq.
Qed.

(** Deriving the status again at the same instant changes nothing. *)
Lemma checkContractStatus_idem now contract :
  checkContractStatus now (checkContractStatus now contract) =
  checkContractStatus now contract.
Proof.
  assert (Hd : daysRemaining now (checkContractStatus now contract) =
               daysRemaining now contract).
  { unfold daysRemaining. by rewrite checkContractStatus_other. }
  unfold checkContractStatus at 1. rewrite Hd. unfold checkContractStatus.
  destruct (num_lt _ 0); [|destruct (num_le _ 30)];
    by rewrite insert_insert_eq.
Qed.

(** C1 (amended): for a contract whose end date is a date, taken as an
    instant, and the instant [now] (which the code never truncates to a
    day), the status is decided by
    daysRemaining = floor((end_date - now) / 1 day):
    expired iff daysRemaining < 0, expiring iff 0 <= daysRemaining <= 30,
    active iff daysRemaining > 30.  In particular an end date that is the
    instant [now] itself gives expiring, one day before [now] expired,
    30 days after [now] expiring and 31 days after [now] active. *)
Theorem checkContractStatus_by_days now contract endDate :
  new_Date (contract !! "end_date") = Some endDate →
  let status := checkContractStatus now contract !! "status" in
  ∃ d, daysRemaining now contract = Some d ∧
    d * MS_PER_DAY ≤ endDate - now < (d + 1) * MS_PER_DAY ∧
    (status = Some (VStr "expired") ↔ d < 0) ∧
    (status = Some (VStr "expiring") ↔ 0 ≤ d ≤ 30) ∧
    (status = Some (VStr "active") ↔ 30 < d) ∧
    (endDate = now → status = Some (VStr "expiring")) ∧
    (endDate = now - MS_PER_DAY → status = Some (VStr "expired")) ∧
    (endDate = now + 30 * MS_PER_DAY → status = Some (VStr "expiring")) ∧
    (endDate = now + 31 * MS_PER_DAY → status = Some (VStr "active")).
Proof.
  intros Hend status.
  destruct (daysRemaining_floor now contract endDate Hend) as (d & Hd & Hfl).
  exists d. split; [done|]. split; [done|].
  assert (Hst : status = Some (VStr (if d <? 0 then "expired"
                  else if d <=? 30 then "expiring" else "active")))
    by (by apply checkContractStatus_cases).
  rewrite MS_PER_DAY_eq in *.
  assert (Hcases : (d < 0 ∧ status = Some (VStr "expired")) ∨
                   (0 ≤ d ≤ 30 ∧ status = Some (VStr "expiring")) ∨
                   (30 < d ∧ status = Some (VStr "active"))).
  { rewrite Hst. destruct (Z.ltb_spec d 0); [by left|].
    destruct (Z.leb_spec d 30); [right; left|right; right]; split; (lia || done). }
  repeat split; intros;
    destruct Hcases as [[? ->]|[[? ->]|[? ->]]]; (done || lia).
Qed.

End StatusEngine.

(** * Properties of the contract store *)

Section ContractStore.
Context `{Host}.

Lemma files_eta st :
  {| CONTRACTS_FILE := CONTRACTS_FILE st;
     CHAT_HISTORY_FILE := CHAT_HISTORY_FILE st |} = st.
Proof. by destruct st. Qed.

Lemma truthy_falsy_absent_or_empty (x : option value) :
  x = None ∨ x = Some (VStr "") → truthy x = false.
Proof. by intros [->| ->]. Qed.


Lemma or_else_falsy x d : truthy x = false → or_else x d = d.
Proof. destruct x as [v|]; [|done]. unfold or_else. by intros ->. Qed.

Lemma truthy_is_Some x : truthy x = true → is_Some x.
Proof. destruct x; [eauto|done]. Qed.

Lemma missing_required_falsy body k :
  k ∈ required_fields → truthy (body !! k) = false → missing_required body = true.
Proof.
  unfold required_fields, missing_required. rewrite !elem_of_cons, elem_of_nil.
  intros Hk Hf.
  destruct Hk as [->|[->|[->|[->|[->|[]]]]]]; rewrite Hf; simpl;
    rewrite ?orb_true_r; done.
Qed.

Lemma missing_required_false body :
  missing_required body = false ↔
  ∀ k, k ∈ required_fields → truthy (body !! k) = true.
Proof.
  split.
  - intros Hm k Hk. destruct (truthy (body !! k)) eqn:Hf; [done|].
    by rewrite (missing_required_falsy body k Hk Hf) in Hm.
  - intros Hall. unfold missing_required.
    rewrite !Hall; [done|in_list..].
Qed.


(** C5: a creation request in which one of title, company, client_name,
    start_date or end_date is absent or empty is answered 400 with a
    validation error, and the persisted state is left as it was. *)
Theorem post_contracts_missing_field now wr body st k :
  k ∈ required_fields →
  body !! k = None ∨ body !! k = Some (VStr "") →
  post_contracts now wr body st = (Err 400 "Missing required fields" None, st).
Proof.
  intros Hk Hempty. unfold post_contracts.
  rewrite (missing_required_falsy body k Hk); [done|].
  by apply truthy_falsy_absent_or_empty.
Qed.

Lemma filter_keeps_all {A} (P : A → Prop) `{∀ x, Decision (P x)} (l : list A) :
  (∀ x, x ∈ l → P x) → filter P l = l.
Proof.
  induction l as [|x l IH]; intros Hall; [done|].
  rewrite filter_cons_True by (apply Hall; left).
  f_equal. apply IH. intros y Hy. apply Hall. by right.
Qed.

Lemma has_id_false id (c : obj) :
  (∀ n, parseInt id = Some n → c !! "id" ≠ Some (VNum n)) → has_id id c = false.
Proof.
  intros Hne. unfold has_id, strict_eq_num.
  destruct (c !! "id") as [[| |a|]|] eqn:Hc; try done.
  destruct (parseInt id) as [b|] eqn:Hp; [|done].
  apply Z.eqb_neq. intros ->. by apply (Hne b).
Qed.

(** Whatever the store holds, DELETE answers with the success message. *)
Lemma delete_contract_response wr id st :
  (delete_contract wr id st).1 = Ok DeletedP.
Proof. done. Qed.

(** C6: deleting an identifier that no contract of the store carries
    leaves the store as it was and answers with the success message; a
    second deletion of the same identifier does the same.  No deletion
    answers with an error. *)
Theorem delete_contract_absent wr wr' id st :
  (∀ c n, c ∈ CONTRACTS_FILE st → parseInt id = Some n →
          c !! "id" ≠ Some (VNum n)) →
  delete_contract wr id st = (Ok DeletedP, st) ∧
  delete_contract wr' id (delete_contract wr id st).2 = (Ok DeletedP, st) ∧
  status_code (delete_contract wr id st).1 = 200.
Proof.
  intros Habs.
  assert (Hdel : ∀ w, delete_contract w id st = (Ok DeletedP, st)).
  { intros w. unfold delete_contract. f_equal.
    rewrite filter_keeps_all.
    - unfold writeJSON_contracts. destruct w; [apply files_eta|done].
    - intros c Hc. apply has_id_false. intros n. by apply Habs. }
  rewrite !Hdel. cbn [fst snd]. by rewrite ?Hdel.
Qed.


(** Math.max over numbers is a number, and bounds each of them. *)
Lemma Math_max_numbers (x : option Z) (xs : list (option Z)) :
  Forall is_Some (x :: xs) →
  ∃ m, Math_max x xs = Some m ∧
       Forall (λ o, ∃ a, o = Some a ∧ a ≤ m) (x :: xs).
Proof.
  revert x. induction xs as [|y ys IH]; intros x Hall.
  - apply Forall_cons in Hall as [[a ->] _]. exists a. split; [done|].
    repeat constructor. exists a. split; [done|lia].
  - apply Forall_cons in Hall as [[a ->] Hall].
    destruct (IH y Hall) as (m & Hm & Hle).
    exists (Z.max a m). simpl. rewrite Hm. split; [done|].
    constructor.
    + exists a. split; [done|lia].
    + eapply Forall_impl; [exact Hle|].
      intros o (b & -> & Hb). exists b. split; [done|lia].
Qed.

(** With numeric identifiers in the store, the next identifier is a
    number above all of them. *)
Lemma Math_max_between lo hi (x : option Z) (xs : list (option Z)) :
  Forall (λ o, ∃ a, o = Some a ∧ lo < a < hi) (x :: xs) →
  ∀ m, Math_max x xs = Some m → lo < m < hi.
Proof.
  revert x. induction xs as [|y ys IH]; intros x Hall m.
  - apply Forall_cons in Hall as [(a & -> & Ha) _]. simpl. by intros [= <-].
  - apply Forall_cons in Hall as [(a & -> & Ha) Hall]. simpl.
    destruct (Math_max y ys) as [b|] eqn:Hb; [|done].
    intros [= <-]. specialize (IH y Hall b Hb). lia.
Qed.

(** Up to 2^53 in magnitude an integer is its own binary64 number. *)
Lemma binary64_of_Z_exact z :
  - TWO_53 ≤ z ≤ TWO_53 → binary64_of_Z z = Some z.
Proof.
  intros Hz. unfold binary64_of_Z.
  destruct (Z.ltb_spec (Z.abs z) TWO_53) as [|Hge]; [done|].
  assert (z = TWO_53 ∨ z = - TWO_53) as [-> | ->] by lia;
    vm_compute; reflexivity.
Qed.

Lemma safe_ids_numeric contracts : safe_ids contracts → numeric_ids contracts.
Proof. intros Hsafe c Hc. destruct (Hsafe c Hc) as (n & Hn & _). by exists n. Qed.

Lemma next_id_fresh (contracts : list obj) :
  safe_ids contracts →
  ∃ n, next_id contracts = Some n ∧ n ≤ TWO_53 ∧
       ∀ c m, c ∈ contracts → c !! "id" = Some (VNum m) → m < n.
Proof.
  intros Hsafe. unfold next_id.
  destruct contracts as [|c0 cs]; simpl.
  - exists 1. split; [done|]. split; [done|].
    intros c m Hc. by apply elem_of_nil in Hc.
  - destruct (Math_max_numbers (ToNumber (c0 !! "id"))
                (map (λ c : obj, ToNumber (c !! "id")) cs)) as (m & Hm & Hle).
    { change (Forall is_Some (map (λ c : obj, ToNumber (c !! "id")) (c0 :: cs))).
      apply Forall_forall. intros o Ho.
      apply list_elem_of_fmap in Ho as (c & -> & Hc).
      destruct (Hsafe c Hc) as (n & -> & _). by eexists. }
    assert (Hm53 : - TWO_53 < m < TWO_53).
    { apply (Math_max_between _ _ (ToNumber (c0 !! "id"))
               (map (λ c : obj, ToNumber (c !! "id")) cs)); [|done].
      change (Forall (λ o, ∃ a, o = Some a ∧ - TWO_53 < a < TWO_53)
                (map (λ c : obj, ToNumber (c !! "id")) (c0 :: cs))).
      apply Forall_forall. intros o Ho.
      apply list_elem_of_fmap in Ho as (c & -> & Hc).
      destruct (Hsafe c Hc) as (n & -> & Hn). exists n. split; [done|lia]. }
    rewrite Hm. cbn [Number_succ].
    rewrite binary64_of_Z_exact by lia.
    exists (m + 1). split; [done|]. split; [lia|].
    intros c k Hc Hk.
    change (Forall (λ o, ∃ a, o = Some a ∧ a ≤ m)
              (map (λ c : obj, ToNumber (c !! "id")) (c0 :: cs))) in Hle.
    rewrite Forall_forall in Hle.
    destruct (Hle (ToNumber (c !! "id"))) as (a & Ha & Hma).
    { apply list_elem_of_fmap. by exists c. }
    rewrite Hk in Ha. simpl in Ha. injection Ha as <-. lia.
Qed.

(** What the object literal of POST /api/contracts holds. *)
Lemma newContract_lookup now body contracts :
  missing_required body = false →
  let c := newContract now body contracts in
  c !! "id" = Some (json_num (next_id contracts)) ∧
  (∀ k, k ∈ required_fields → c !! k = body !! k) ∧
  c !! "contract_type" =
    Some (or_else (body !! "contract_type") (VStr "individual")) ∧
  c !! "salary" = Some (or_else (body !! "salary") VNull) ∧
  c !! "notes" = Some (or_else (body !! "notes") (VStr "")) ∧
  c !! "created_at" = Some (VStr (toISOString now)).
Proof.
  intros Hreq. rewrite missing_required_false in Hreq.
  assert (Hsome : ∀ k, k ∈ required_fields → is_Some (body !! k))
    by (intros k Hk; by apply truthy_is_Some, Hreq).
  destruct (Hsome "title") as [v1 H1]; [in_list|].
  destruct (Hsome "company") as [v2 H2]; [in_list|].
  destruct (Hsome "client_name") as [v3 H3]; [in_list|].
  destruct (Hsome "start_date") as [v4 H4]; [in_list|].
  destruct (Hsome "end_date") as [v5 H5]; [in_list|].
  unfold newContract. rewrite H1, H2, H3, H4, H5. unfold set_prop.
  split_and!.
  - by repeat (rewrite lookup_insert_ne by done); rewrite lookup_insert_eq.
  - unfold required_fields. intros k. rewrite !elem_of_cons, elem_of_nil.
    intros [->|[->|[->|[->|[->|[]]]]]];
      repeat (rewrite lookup_insert_ne by done); by rewrite lookup_insert_eq.
  - by repeat (rewrite lookup_insert_ne by done); rewrite lookup_insert_eq.
  - by repeat (rewrite lookup_insert_ne by done); rewrite lookup_insert_eq.
  - by repeat (rewrite lookup_insert_ne by done); rewrite lookup_insert_eq.
  - by repeat (rewrite lookup_insert_ne by done); rewrite lookup_insert_eq.
Qed.


End ContractStore.

(** * Properties of the alert generator *)

Section Alerts.
Context `{Host}.

Lemma strict_eq_str_true v s : strict_eq_str v s = true ↔ v = Some (VStr s).
Proof.
  unfold strict_eq_str. destruct v as [[| | |a]|]; try (split; done).
  rewrite String.eqb_eq. split; [by intros ->|by intros [= ->]].
Qed.

(** The test of the forEach callback is the test that an alert is due. *)
Lemma alerts_step_due now today alerts contract :
  alerts_step now today alerts contract =
  if decide (due now contract)
  then alerts ++ [alert_of today (checkContractStatus now contract)]
  else alerts.
Proof.
  unfold alerts_step, due, derived_status.
  destruct (strict_eq_str _ "expiring") eqn:H1.
  - apply strict_eq_str_true in H1. rewrite decide_True; [done|by left].
  - destruct (strict_eq_str _ "expired") eqn:H2; simpl.
    + apply strict_eq_str_true in H2. rewrite decide_True; [done|by right].
    + rewrite decide_False; [done|].
      intros [Hd|Hd]; apply strict_eq_str_true in Hd; congruence.
Qed.

(** The loop pushes, in order, one alert for each contract that is due. *)
Lemma alerts_fold now today contracts acc :
  fold_left (alerts_step now today) contracts acc =
  acc ++ map (λ c, alert_of today (checkContractStatus now c))
             (filter (due now) contracts).
Proof.
  revert acc. induction contracts as [|c cs IH]; intros acc; simpl.
  - by rewrite app_nil_r.
  - rewrite IH, alerts_step_due, filter_cons.
    destruct (decide (due now c)); [|done].
    by rewrite <- app_assoc.
Qed.

Lemma lookup_set_prop k x (o : obj) j :
  set_prop k x o !! j =
  if decide (k = j) then (match x with Some v => Some v | None => o !! j end)
  else o !! j.
Proof.
  unfold set_prop. destruct x as [v|].
  - rewrite lookup_insert. by destruct (decide (k = j)).
  - by destruct (decide (k = j)).
Qed.

(** The seven properties of an alert. *)
Lemma alert_of_lookup now today contract :
  let a := alert_of today (checkContractStatus now contract) in
  a !! "contract_id" = contract !! "id" ∧
  a !! "title" = contract !! "title" ∧
  a !! "company" = contract !! "company" ∧
  a !! "end_date" = contract !! "end_date" ∧
  a !! "days_remaining" = Some (json_num (daysRemaining today contract)) ∧
  a !! "status" = derived_status now contract ∧
  a !! "message" =
    Some (VStr ("Contract '" +:+ ToString (contract !! "title") +:+ "' is " +:+
                ToString (derived_status now contract))) ∧
  ∀ k, is_Some (a !! k) →
       k ∈ ["contract_id"; "title"; "company"; "end_date"; "days_remaining";
            "status"; "message"].
Proof.
  intros a. subst a. unfold alert_of, derived_status.
  assert (Hd : daysRemaining today (checkContractStatus now contract) =
               daysRemaining today contract).
  { unfold daysRemaining. by rewrite checkContractStatus_other. }
  rewrite Hd.
  rewrite !(checkContractStatus_other now contract "title"),
          !(checkContractStatus_other now contract "id"),
          !(checkContractStatus_other now contract "company"),
          !(checkContractStatus_other now contract "end_date") by done.
  split_and!.
  - repeat (first [rewrite lookup_insert_ne by done
                  | rewrite lookup_set_prop, decide_False by done]).
    rewrite lookup_set_prop, decide_True by done.
    by destruct (contract !! "id").
  - repeat (first [rewrite lookup_insert_ne by done
                  | rewrite lookup_set_prop, decide_False by done]).
    rewrite lookup_set_prop, decide_True by done.
    destruct (contract !! "title"); [done|].
    by rewrite lookup_set_prop, decide_False.
  - repeat (first [rewrite lookup_insert_ne by done
                  | rewrite lookup_set_prop, decide_False by done]).
    rewrite lookup_set_prop, decide_True by done.
    destruct (contract !! "company"); [done|].
    by rewrite !lookup_set_prop, !decide_False.
  - repeat (first [rewrite lookup_insert_ne by done
                  | rewrite lookup_set_prop, decide_False by done]).
    rewrite lookup_set_prop, decide_True by done.
    destruct (contract !! "end_date"); [done|].
    by rewrite !lookup_set_prop, !decide_False.
  - repeat (first [rewrite lookup_insert_ne by done
                  | rewrite lookup_set_prop, decide_False by done]).
    by rewrite lookup_insert_eq.
  - rewrite lookup_insert_ne by done.
    rewrite lookup_set_prop, decide_True by done.
    destruct (checkContractStatus_status now contract) as (s & -> & _). done.
  - by rewrite lookup_insert_eq.
  - intros k.
    rewrite !elem_of_cons, elem_of_nil.
    destruct (decide (k = "message")) as [->|]; [tauto|].
    rewrite lookup_insert_ne by done.
    destruct (decide (k = "status")) as [->|]; [tauto|].
    rewrite lookup_set_prop, decide_False by done.
    destruct (decide (k = "days_remaining")) as [->|]; [tauto|].
    rewrite lookup_insert_ne by done.
    destruct (decide (k = "end_date")) as [->|]; [tauto|].
    rewrite lookup_set_prop, decide_False by done.
    destruct (decide (k = "company")) as [->|]; [tauto|].
    rewrite lookup_set_prop, decide_False by done.
    destruct (decide (k = "title")) as [->|]; [tauto|].
    rewrite lookup_set_prop, decide_False by done.
    destruct (decide (k = "contract_id")) as [->|]; [tauto|].
    rewrite lookup_set_prop, decide_False by done.
    rewrite lookup_empty. by intros [? ?].
Qed.

(** C4: GET /api/alerts answers with one alert for every contract whose
    derived status is expiring or expired, in the order of the store, and
    none for the others, whose derived status is active.  An alert holds
    contract_id, title, company, end_date, days_remaining, the derived
    status, and the message that names the title and the status.  The
    status is derived at the instant [now] at which the handler examines the
    contract, days_remaining at the instant [today] of its second reading of
    the clock. *)
Theorem get_alerts_spec now today st :
  ∃ alerts,
    get_alerts now today st = (Ok (AlertsP alerts (length alerts)), st) ∧
    alerts = map (λ c, alert_of today (checkContractStatus now c))
                 (filter (due now) (CONTRACTS_FILE st)) ∧
    (∀ c, due now c ∨ derived_status now c = Some (VStr "active")) ∧
    ∀ c, let a := alert_of today (checkContractStatus now c) in
      a !! "contract_id" = c !! "id" ∧
      a !! "title" = c !! "title" ∧
      a !! "company" = c !! "company" ∧
      a !! "end_date" = c !! "end_date" ∧
      a !! "days_remaining" = Some (json_num (daysRemaining today c)) ∧
      a !! "status" = derived_status now c ∧
      a !! "message" =
        Some (VStr ("Contract '" +:+ ToString (c !! "title") +:+ "' is " +:+
                    ToString (derived_status now c))) ∧
      ∀ k, is_Some (a !! k) →
           k ∈ ["contract_id"; "title"; "company"; "end_date"; "days_remaining";
                "status"; "message"].
Proof.
  eexists. split; [reflexivity|]. split; [apply (alerts_fold now today _ [])|].
  split; [|apply alert_of_lookup].
  intros c. unfold due, derived_status.
  destruct (checkContractStatus_status now c) as (s & -> & [->|[->| ->]]); auto.
Qed.

End Alerts.

(** * Properties of the search *)

Section Search.
Context `{Host}.

Lemma prefix_spec t s : String.prefix t s = true ↔ ∃ post, s = t +:+ post.
Proof.
  revert s. induction t as [|a t IH]; intros s; simpl.
  - destruct s; (split; [intros _; by eexists|done]).
  - destruct s as [|b s]; simpl.
    + split; [done|]. by intros [post ?].
    + destruct (Ascii.ascii_dec a b) as [->|Hne].
      * rewrite IH. split.
        -- intros [post ->]. by exists post.
        -- intros [post [= ->]]. by exists post.
      * split; [done|]. intros [post [= ? ?]]. done.
Qed.

(** [includes] decides the substring relation. *)
Lemma includes_spec s t : includes s t = true ↔ occurs_in t s.
Proof.
  unfold occurs_in. induction s as [|a s IH]; cbn [includes].
  - rewrite orb_false_r, prefix_spec. split.
    + intros [post ->]. by exists EmptyString, post.
    + intros (pre & post & Heq). destruct pre; [by exists post|done].
  - rewrite orb_true_iff, prefix_spec, IH. split.
    + intros [[post ->]|(pre & post & ->)].
      * by exists EmptyString, post.
      * by exists (String a pre), post.
    + intros (pre & post & Heq). destruct pre as [|b pre]; simpl in Heq.
      * left. by exists post.
      * injection Heq as -> ->. right. by exists pre, post.
Qed.

(** A callback that does not throw on the elements filters as usual. *)
Lemma Array_filter_total {A} (p : A → result bool) (keep : A → bool) (l : list A) :
  (∀ x, x ∈ l → p x = Return (keep x)) →
  Array_filter p l = Return (filter (λ x, keep x = true) l).
Proof.
  induction l as [|x l IH]; intros Hp; simpl; [done|].
  rewrite Hp by left. simpl.
  rewrite IH by (intros y Hy; apply Hp; by right). simpl.
  rewrite filter_cons. by destruct (keep x).
Qed.

(** The first throw of the callback is the throw of the filter. *)
Lemma Array_filter_throw {A} (p : A → result bool) (l1 l2 : list A) x e :
  (∀ y, y ∈ l1 → ∃ b, p y = Return b) → p x = Throw e →
  Array_filter p (l1 ++ x :: l2) = Throw e.
Proof.
  intros Hl1 Hx. induction l1 as [|y l1 IH]; simpl.
  - by rewrite Hx.
  - destruct (Hl1 y) as [b ->]; [left|]. simpl.
    rewrite IH; [done|]. intros z Hz. apply Hl1. by right.
Qed.

(** On a contract whose four searched fields are strings, the callback
    returns the disjunction of the four substring tests. *)
Lemma search_match_strings searchTerm (c : obj) s1 s2 s3 s4 :
  c !! "title" = Some (VStr s1) → c !! "company" = Some (VStr s2) →
  c !! "client_name" = Some (VStr s3) → c !! "status" = Some (VStr s4) →
  search_match searchTerm c =
  Return (includes (toLowerCase s1) searchTerm ||
          includes (toLowerCase s2) searchTerm ||
          includes (toLowerCase s3) searchTerm ||
          includes (toLowerCase s4) searchTerm).
Proof.
  intros H1 H2 H3 H4. unfold search_match, field_includes, or_lazy.
  rewrite H1, H2, H3, H4. simpl.
  by destruct (includes (toLowerCase s1) searchTerm),
              (includes (toLowerCase s2) searchTerm),
              (includes (toLowerCase s3) searchTerm).
Qed.

(** The search on the fields as they are stored: for a query that is a
    string, over a store whose contracts have strings as title, company,
    client_name and stored status, the search answers with the contracts,
    in the order of the store, for which the query is, up to case, a
    substring of at least one of the four stored fields. *)
Theorem post_search_spec body st term :
  body !! "query" = Some (VStr term) →
  (∀ c k, c ∈ CONTRACTS_FILE st → k ∈ searched_fields →
          ∃ s, c !! k = Some (VStr s)) →
  ∃ results (keep : obj → bool),
    post_search body st = (Ok (ResultsP results (length results)), st) ∧
    results = filter (λ c, keep c = true) (CONTRACTS_FILE st) ∧
    results `sublist_of` CONTRACTS_FILE st ∧
    (∀ c, c ∈ CONTRACTS_FILE st → keep c = true ↔ search_hit term c) ∧
    (∀ c, c ∈ results ↔ c ∈ CONTRACTS_FILE st ∧ search_hit term c).
Proof.
  intros Hq Hstr.
  set (keep := λ c : obj,
    match search_match (toLowerCase term) c with
    | Return b => b
    | Throw _ => false
    end).
  assert (Hkeep : ∀ c, c ∈ CONTRACTS_FILE st →
            search_match (toLowerCase term) c = Return (keep c) ∧
            (keep c = true ↔ search_hit term c)).
  { intros c Hc.
    destruct (Hstr c "title" Hc) as [s1 H1]; [in_list|].
    destruct (Hstr c "company" Hc) as [s2 H2]; [in_list|].
    destruct (Hstr c "client_name" Hc) as [s3 H3]; [in_list|].
    destruct (Hstr c "status" Hc) as [s4 H4]; [in_list|].
    unfold keep. rewrite (search_match_strings _ c s1 s2 s3 s4) by done.
    split; [done|].
    rewrite !orb_true_iff, !includes_spec. unfold search_hit. split.
    - intros [[[Ho|Ho]|Ho]|Ho];
        [exists "title", s1|exists "company", s2
        |exists "client_name", s3|exists "status", s4];
        (split; [in_list|done]).
    - intros (k & s & Hk & Hks & Ho). revert Hk.
      unfold searched_fields. rewrite !elem_of_cons, elem_of_nil.
      intros [->|[->|[->|[->|[]]]]]; simplify_eq; tauto. }
  exists (filter (λ c, keep c = true) (CONTRACTS_FILE st)), keep.
  split_and!.
  - unfold post_search. rewrite Hq. simpl.
    rewrite (Array_filter_total _ keep) by (intros c Hc; by apply Hkeep).
    done.
  - done.
  - apply sublist_filter.
  - intros c Hc. by apply Hkeep.
  - intros c. rewrite list_elem_of_filter. split.
    + intros [Hk Hc]. split; [done|]. by apply Hkeep.
    + intros [Hc Hh]. split; [|done]. by apply Hkeep.
Qed.

End Search.

(** * Properties of the chat handler and of the session store *)

Section Chat.
Context `{Host}.

(** A failed inference call throws before the history is read. *)
Lemma ask_failure (ollama : inference) briefing message :
  ollama briefing message = Rejected ∨
  (∃ data, ollama briefing message = Responded false data) →
  ∃ e, ask ollama briefing message = Throw e ∧
       (e = FetchFailed ∨ e = OllamaApiError).
Proof.
  unfold ask. intros [->|[data ->]]; eauto.
Qed.

(** C10: when the inference call fails, because the endpoint is
    unreachable or because it answers with a status that is not a
    success, POST /api/chat answers 500 with the remediation hint, and
    both files are left as they were: no exchange is appended to any
    session. *)
Theorem post_chat_upstream_failure now wr (ollama : inference) body st :
  ollama (contractSummary (CONTRACTS_FILE st)) (body !! "message") = Rejected ∨
  (∃ data, ollama (contractSummary (CONTRACTS_FILE st)) (body !! "message")
           = Responded false data) →
  ∃ e, post_chat now wr ollama body st = (Err 500 OLLAMA_HINT (Some e), st) ∧
       status_code (post_chat now wr ollama body st).1 = 500 ∧
       CHAT_HISTORY_FILE (post_chat now wr ollama body st).2
         = CHAT_HISTORY_FILE st.
Proof.
  intros Hfail. destruct (ask_failure _ _ _ Hfail) as (e & He & _).
  exists e. unfold post_chat. rewrite He. done.
Qed.

(** A name that the file does not hold and that is not inherited reads
    as undefined. *)
Lemma read_history_absent (chatHistory : gmap string (list obj)) k :
  chatHistory !! k = None → k ∉ Object_prototype_names →
  read_history chatHistory k = Absent.
Proof.
  intros Hk Hn. unfold read_history. rewrite Hk.
  by rewrite bool_decide_eq_false_2.
Qed.

Lemma read_history_own (chatHistory : gmap string (list obj)) k history :
  chatHistory !! k = Some history → read_history chatHistory k = Own history.
Proof. intros Hk. unfold read_history. by rewrite Hk. Qed.

(** The append, for a session name that is not inherited: the exchange
    goes to the end of the session, which is created when absent. *)
Lemma append_exchange_ordinary k exchange (chatHistory : gmap string (list obj)) :
  k ∉ Object_prototype_names →
  append_exchange k exchange chatHistory =
  Return (<[k := default [] (chatHistory !! k) ++ [exchange]]> chatHistory).
Proof.
  intros Hn. unfold append_exchange.
  destruct (chatHistory !! k) as [history|] eqn:Hk.
  - by rewrite (read_history_own _ _ history).
  - by rewrite read_history_absent.
Qed.

(** A successful chat request under a truthy session name that is not
    inherited appends its exchange to that session. *)
Lemma post_chat_appends now (ollama : inference) body st k botResponse :
  body !! "chat_id" = Some (VStr k) → k ≠ "" →
  k ∉ Object_prototype_names →
  ollama (contractSummary (CONTRACTS_FILE st)) (body !! "message")
    = Responded true (Content botResponse) →
  post_chat now true ollama body st =
  (Ok (ChatP botResponse (VStr k) (toISOString now)),
   {| CONTRACTS_FILE := CONTRACTS_FILE st;
      CHAT_HISTORY_FILE :=
        <[k := default [] (CHAT_HISTORY_FILE st !! k) ++
               [exchange_of now (body !! "message") botResponse]]>
        (CHAT_HISTORY_FILE st) |}).
Proof.
  intros Hid Hne Hn Hup.
  assert (Hor : or_else (Some (VStr k)) (VStr (pretty now)) = VStr k).
  { unfold or_else. simpl. destruct (String.eqb_spec k ""); done. }
  unfold post_chat, ask. rewrite Hup, Hid, Hor.
  cbn [negb bind ToString]. rewrite append_exchange_ordinary by done.
  done.
Qed.

(** An exchange keeps the user's message and the reply. *)
Lemma exchange_of_lookup now message botResponse :
  let e := exchange_of now message botResponse in
  e !! "timestamp" = Some (VStr (toISOString now)) ∧
  e !! "user" = message ∧ e !! "bot" = botResponse.
Proof.
  unfold exchange_of, set_prop.
  destruct message, botResponse; simpl; by simplify_map_eq.
Qed.

(** The session store on session names that are not inherited from
    Object.prototype: the history of an unknown session is answered 404;
    after two successful chat requests under a fresh name the history is
    the two exchanges, in the order of the requests, with the user's
    messages and the replies as they were. *)
Lemma chat_twice_then_history t1 t2 (ollama : inference) st k m1 m2 b1 b2 :
  k ≠ "" → k ∉ Object_prototype_names →
  CHAT_HISTORY_FILE st !! k = None →
  (∀ briefing, ollama briefing (Some m1) = Responded true (Content (Some b1))) →
  (∀ briefing, ollama briefing (Some m2) = Responded true (Content (Some b2))) →
  let st1 := (post_chat t1 true ollama
                {[ "chat_id" := VStr k; "message" := m1 ]} st).2 in
  let st2 := (post_chat t2 true ollama
                {[ "chat_id" := VStr k; "message" := m2 ]} st1).2 in
  get_chat_history k st = (Err 404 "Chat history not found" None, st) ∧
  ∃ e1 e2,
    get_chat_history k st2 = (Ok (HistoryP k (Some [e1; e2])), st2) ∧
    e1 !! "user" = Some m1 ∧ e1 !! "bot" = Some b1 ∧
    e1 !! "timestamp" = Some (VStr (toISOString t1)) ∧
    e2 !! "user" = Some m2 ∧ e2 !! "bot" = Some b2 ∧
    e2 !! "timestamp" = Some (VStr (toISOString t2)).
Proof.
  intros Hne Hn Hfresh Hup1 Hup2 st1 st2.
  assert (Hcid : ∀ m : value,
    ({[ "chat_id" := VStr k; "message" := m ]} : obj) !! "chat_id" = Some (VStr k))
    by (intros m; by simplify_map_eq).
  assert (Hmsg : ∀ m : value,
    ({[ "chat_id" := VStr k; "message" := m ]} : obj) !! "message" = Some m)
    by (intros m; by simplify_map_eq).
  split.
  { unfold get_chat_history. by rewrite read_history_absent. }
  subst st2 st1.
  rewrite (post_chat_appends t1 ollama _ st k (Some b1)); [|by rewrite ?Hmsg..].
  cbn [snd].
  rewrite (post_chat_appends t2 ollama _ _ k (Some b2)); [|by rewrite ?Hmsg..].
  cbn [snd CONTRACTS_FILE CHAT_HISTORY_FILE].
  rewrite Hfresh, !Hmsg, lookup_insert_eq, insert_insert_eq. simpl.
  exists (exchange_of t1 (Some m1) (Some b1)), (exchange_of t2 (Some m2) (Some b2)).
  split.
  { unfold get_chat_history. cbn [CHAT_HISTORY_FILE].
    by rewrite (read_history_own _ _ _ (lookup_insert_eq _ _ _)). }
  destruct (exchange_of_lookup t1 (Some m1) (Some b1)) as (? & ? & ?).
  destruct (exchange_of_lookup t2 (Some m2) (Some b2)) as (? & ? & ?).
  done.
Qed.

End Chat.

(** * Further properties: status over time, listing, badges *)

Section StatusOverTime.
Context `{Host}.

Lemma derived_status_valid now contract endDate :
  new_Date (contract !! "end_date") = Some endDate →
  derived_status now contract =
    Some (VStr (if (endDate - now) / MS_PER_DAY <? 0 then "expired"
                else if (endDate - now) / MS_PER_DAY <=? 30 then "expiring"
                else "active")).
Proof.
  intros Hend. apply checkContractStatus_cases.
  unfold daysRemaining. by rewrite Hend.
Qed.

(** X1: as time passes a contract only moves from active to expiring to
    expired.  For now <= now': expired at now stays expired at now';
    expiring at now is expiring or expired at now'; active at now' was
    active at now. *)
Theorem checkContractStatus_time_monotone now now' contract :
  now ≤ now' →
  (derived_status now contract = Some (VStr "expired") →
   derived_status now' contract = Some (VStr "expired")) ∧
  (derived_status now contract = Some (VStr "expiring") →
   derived_status now' contract = Some (VStr "expiring") ∨
   derived_status now' contract = Some (VStr "expired")) ∧
  (derived_status now' contract = Some (VStr "active") →
   derived_status now contract = Some (VStr "active")).
Proof.
  intros Hle.
  destruct (new_Date (contract !! "end_date")) as [endDate|] eqn:Hend.
  - rewrite !(derived_status_valid _ contract endDate Hend).
    assert (Hd : (endDate - now') / MS_PER_DAY ≤ (endDate - now) / MS_PER_DAY).
    { apply Z.div_le_mono; [rewrite MS_PER_DAY_eq; lia|lia]. }
    set (d := (endDate - now) / MS_PER_DAY) in *.
    set (d' := (endDate - now') / MS_PER_DAY) in *.
    destruct (Z.ltb_spec d 0), (Z.leb_spec d 30),
             (Z.ltb_spec d' 0), (Z.leb_spec d' 30);
      split_and!; intros; try done; try lia; auto.
  - unfold derived_status. rewrite !checkContractStatus_invalid by done.
    split_and!; intros; done.
Qed.

(** X2: GET /api/contracts writes nothing.  It answers with as many
    contracts as are stored, in store order, each with its stored
    properties and with the status derived at the time of the request,
    whatever status is stored. *)
Theorem get_contracts_frame now st :
  ∃ listed,
    get_contracts now st = (Ok (ContractsP listed), st) ∧
    length listed = length (CONTRACTS_FILE st) ∧
    ∀ i c, CONTRACTS_FILE st !! i = Some c →
      ∃ c', listed !! i = Some c' ∧
            (∀ k, k ≠ "status" → c' !! k = c !! k) ∧
            c' !! "status" = derived_status now (delete "status" c).
Proof.
  exists (map (checkContractStatus now) (CONTRACTS_FILE st)).
  split; [done|]. split; [by rewrite length_map|].
  intros i c Hi. exists (checkContractStatus now c). split_and!.
  - change (map ?f ?l) with (f <$> l). by rewrite list_lookup_fmap, Hi.
  - intros k Hk. by apply checkContractStatus_other.
  - unfold derived_status. apply checkContractStatus_end_date.
    by rewrite lookup_delete_ne.
Qed.

(** X3: every contract of the listing gets a badge.  The switch of
    getStatusClass never falls to its default on a status that
    checkContractStatus has written: the class is status- followed by
    the status. *)
Theorem getStatusClass_of_listed now st listed c :
  (get_contracts now st).1 = Ok (ContractsP listed) →
  c ∈ listed →
  ∃ s, c !! "status" = Some (VStr s) ∧
       getStatusClass (c !! "status") = "status-" +:+ s ∧
       getStatusClass (c !! "status") ≠ "".
Proof.
  intros [= <-] Hc.
  apply list_elem_of_fmap in Hc as (c0 & -> & _).
  destruct (checkContractStatus_status now c0) as (s & Hs & Hcases).
  exists s. rewrite Hs.
  destruct Hcases as [->|[->| ->]]; done.
Qed.

End StatusOverTime.

(** * Further properties of the contract store *)

Section ContractStoreMore.
Context `{Host}.

Lemma has_id_true id (c : obj) :
  has_id id c = true ↔ ∃ n, c !! "id" = Some (VNum n) ∧ parseInt id = Some n.
Proof.
  unfold has_id, strict_eq_num.
  destruct (c !! "id") as [[| |a|]|]; try (split; [done|by intros (? & ? & ?)]).
  destruct (parseInt id) as [b|]; [|split; [done|by intros (? & ? & ?)]].
  rewrite Z.eqb_eq. split.
  - intros ->. by exists b.
  - by intros (n & [= ->] & [= ->]).
Qed.

Lemma list_find_absent id (contracts : list obj) :
  (∀ c n, c ∈ contracts → parseInt id = Some n → c !! "id" ≠ Some (VNum n)) →
  list_find (λ c, has_id id c = true) contracts = None.
Proof.
  intros Habs. apply list_find_None, Forall_forall. intros c Hc.
  rewrite has_id_false; [done|]. intros n. by apply Habs.
Qed.

(** X4: whatever the request, POST /api/contracts answers 400, 500 or
    200; it never touches the chat history, never changes a stored
    contract, and the store gains a contract, at its end, exactly when
    the answer is 200.  The answer is 400 exactly when a required field
    is falsy, and 500 exactly when the fields are there and the write
    fails. *)
Theorem post_contracts_outcomes now wr body st :
  let r := (post_contracts now wr body st).1 in
  let st' := (post_contracts now wr body st).2 in
  CHAT_HISTORY_FILE st' = CHAT_HISTORY_FILE st ∧
  ((missing_required body = true ∧ st' = st ∧
    r = Err 400 "Missing required fields" None) ∨
   (missing_required body = false ∧ wr = false ∧ st' = st ∧
    r = Err 500 "Failed to save contract" None) ∨
   (missing_required body = false ∧ wr = true ∧
    ∃ created, r = Ok (CreatedP created) ∧
      CONTRACTS_FILE st' = CONTRACTS_FILE st ++ [created] ∧
      created !! "created_at" = Some (VStr (toISOString now)) ∧
      created !! "status" = derived_status now body)).
Proof.
  intros r st'. subst r st'. unfold post_contracts.
  destruct (missing_required body) eqn:Hreq; [split; [done|by left]|].
  destruct wr; simpl; (split; [done|]); right; [right|left; done].
  split_and!; [done..|]. eexists. split_and!; [done..| |].
  - rewrite checkContractStatus_other by done.
    by destruct (newContract_lookup now body (CONTRACTS_FILE st) Hreq)
      as (_ & _ & _ & _ & _ & ?).
  - unfold derived_status. apply checkContractStatus_end_date.
    destruct (newContract_lookup now body (CONTRACTS_FILE st) Hreq)
      as (_ & Hfields & _).
    apply Hfields. in_list.
Qed.

Lemma ids_of_app l1 l2 : ids_of (l1 ++ l2) = ids_of l1 ++ ids_of l2.
Proof. unfold ids_of. apply map_app. Qed.

Lemma elem_of_ids_of o contracts :
  o ∈ ids_of contracts ↔ ∃ c, c ∈ contracts ∧ o = c !! "id".
Proof.
  unfold ids_of. change (map ?f ?l) with (f <$> l).
  rewrite list_elem_of_fmap. split; intros (c & ? & ?); by exists c.
Qed.

(** X5: identifiers stay distinct below 2^53.  If the stored
    identifiers are safe integers (numbers of magnitude below 2^53) and
    pairwise distinct, then after a successful creation the identifiers
    are numbers, at most 2^53, and still pairwise distinct; the store is
    one longer, and the new identifier is 1 on an empty store.  (From
    2^53 on, Math.max(...) + 1 rounds and repeats an identifier.) *)
Theorem post_contracts_keeps_ids_distinct now body st :
  missing_required body = false →
  safe_ids (CONTRACTS_FILE st) →
  NoDup (ids_of (CONTRACTS_FILE st)) →
  let st' := (post_contracts now true body st).2 in
  (∀ c, c ∈ CONTRACTS_FILE st' → ∃ n, c !! "id" = Some (VNum n) ∧ n ≤ TWO_53) ∧
  NoDup (ids_of (CONTRACTS_FILE st')) ∧
  length (CONTRACTS_FILE st') = S (length (CONTRACTS_FILE st)) ∧
  (CONTRACTS_FILE st = [] → ids_of (CONTRACTS_FILE st') = [Some (VNum 1)]).
Proof.
  intros Hreq Hnum Hdup st'. subst st'.
  destruct (next_id_fresh (CONTRACTS_FILE st) Hnum) as (n & Hn & Hn53 & Hfresh).
  destruct (newContract_lookup now body (CONTRACTS_FILE st) Hreq) as (Hid & _).
  rewrite Hn in Hid. simpl in Hid.
  set (created := checkContractStatus now (newContract now body (CONTRACTS_FILE st))).
  assert (Hcid : created !! "id" = Some (VNum n))
    by (unfold created; by rewrite checkContractStatus_other).
  assert (Hst : CONTRACTS_FILE (post_contracts now true body st).2
                = CONTRACTS_FILE st ++ [created]).
  { unfold post_contracts. by rewrite Hreq. }
  rewrite Hst. split_and!.
  - intros c Hc. apply elem_of_app in Hc as [Hc|Hc].
    + destruct (Hnum c Hc) as (m & Hm & Hm53). exists m. split; [done|lia].
    + apply list_elem_of_singleton in Hc as ->. by exists n.
  - rewrite ids_of_app. apply NoDup_app. split_and!.
    + done.
    + intros o Ho Hnew. apply elem_of_ids_of in Ho as (c & Hc & ->).
      simpl in Hnew. apply list_elem_of_singleton in Hnew.
      rewrite Hcid in Hnew. specialize (Hfresh c n Hc Hnew). lia.
    + simpl. apply NoDup_singleton.
  - rewrite length_app. simpl. lia.
  - intros Hempty. rewrite Hempty in *. simpl. rewrite Hcid.
    unfold next_id in Hn. simpl in Hn. by injection Hn as <-.
Qed.

Lemma elem_of_list_insert_inv {A} (l : list A) i x y :
  y ∈ <[i := x]> l → y = x ∨ y ∈ l.
Proof.
  intros Hy. apply list_elem_of_lookup in Hy as [j Hj].
  destruct (decide (i = j)) as [->|Hne].
  - destruct (decide (j < length l)%nat).
    + rewrite list_lookup_insert_eq in Hj by done. left. congruence.
    + rewrite list_insert_ge in Hj by lia. right.
      by eapply list_elem_of_lookup_2.
  - rewrite list_lookup_insert_ne in Hj by done. right.
    by eapply list_elem_of_lookup_2.
Qed.

(** X6: DELETE, and PUT with a body that supplies no id, keep the same
    invariant: numeric, pairwise distinct identifiers stay so, whether
    or not a contract matches and whether or not the write succeeds. *)
Theorem delete_put_keep_ids_distinct now wr id body st :
  numeric_ids (CONTRACTS_FILE st) →
  NoDup (ids_of (CONTRACTS_FILE st)) →
  (numeric_ids (CONTRACTS_FILE (delete_contract wr id st).2) ∧
   NoDup (ids_of (CONTRACTS_FILE (delete_contract wr id st).2))) ∧
  (body !! "id" = None →
   ids_of (CONTRACTS_FILE (put_contract now wr id body st).2)
     = ids_of (CONTRACTS_FILE st) ∧
   numeric_ids (CONTRACTS_FILE (put_contract now wr id body st).2) ∧
   NoDup (ids_of (CONTRACTS_FILE (put_contract now wr id body st).2))).
Proof.
  intros Hnum Hdup. split.
  - unfold delete_contract, writeJSON_contracts. destruct wr; simpl; [|done].
    split.
    + intros c Hc. apply list_elem_of_filter in Hc as [_ Hc]. by apply Hnum.
    + eapply sublist_NoDup; [exact Hdup|].
      unfold ids_of. change (map ?f ?l) with (f <$> l).
      apply fmap_sublist, sublist_filter.
  - intros Hbody. unfold put_contract.
    destruct (list_find _ _) as [[index existing]|] eqn:Hfind; [|done].
    apply list_find_Some in Hfind as (Hidx & _ & _).
    unfold writeJSON_contracts. destruct wr; simpl; [|done].
    set (updated := checkContractStatus now (body ∪ existing)).
    assert (Hid : updated !! "id" = existing !! "id").
    { unfold updated. rewrite checkContractStatus_other by done.
      by rewrite lookup_union, Hbody, (left_id_L None _). }
    assert (Hids : ids_of (<[index := updated]> (CONTRACTS_FILE st))
                   = ids_of (CONTRACTS_FILE st)).
    { unfold ids_of. change (map ?f ?l) with (f <$> l).
      rewrite list_fmap_insert. apply list_insert_id.
      by rewrite list_lookup_fmap, Hidx, Hid. }
    split; [done|]. split; [|by rewrite Hids].
    intros c Hc. apply elem_of_list_insert_inv in Hc as [->|Hc]; [|by apply Hnum].
    rewrite Hid. apply Hnum. by eapply list_elem_of_lookup_2.
Qed.

Lemma Math_max_NaN (x : option Z) (xs : list (option Z)) :
  None ∈ x :: xs → Math_max x xs = None.
Proof.
  revert x. induction xs as [|y ys IH]; intros x Hin.
  - apply list_elem_of_singleton in Hin as <-. done.
  - simpl. apply elem_of_cons in Hin as [<-|Hin]; [done|].
    rewrite (IH y Hin). by destruct x.
Qed.

(** X7: one stored identifier that is not a number spoils the next
    creation.  Math.max is NaN, the new contract is stored with the
    identifier null, and no id parameter selects it afterwards: GET and
    PUT cannot reach it, DELETE cannot remove it. *)
Theorem post_contracts_nan_id now body st c0 :
  missing_required body = false →
  c0 ∈ CONTRACTS_FILE st →
  ToNumber (c0 !! "id") = None →
  ∃ created,
    post_contracts now true body st =
      (Ok (CreatedP created),
       {| CONTRACTS_FILE := CONTRACTS_FILE st ++ [created];
          CHAT_HISTORY_FILE := CHAT_HISTORY_FILE st |}) ∧
    created !! "id" = Some VNull ∧
    ∀ id, has_id id created = false.
Proof.
  intros Hreq Hc0 Hnan.
  assert (Hnext : next_id (CONTRACTS_FILE st) = None).
  { unfold next_id.
    destruct (map (λ c : obj, ToNumber (c !! "id")) (CONTRACTS_FILE st))
      as [|x xs] eqn:Hmap.
    - destruct (CONTRACTS_FILE st); [by apply elem_of_nil in Hc0|done].
    - rewrite Math_max_NaN; [done|]. rewrite <- Hmap, <- Hnan.
      change (map ?f ?l) with (f <$> l). apply list_elem_of_fmap. by exists c0. }
  destruct (newContract_lookup now body (CONTRACTS_FILE st) Hreq) as (Hid & _).
  rewrite Hnext in Hid. simpl in Hid.
  eexists. split; [|split].
  - unfold post_contracts. rewrite Hreq. reflexivity.
  - by rewrite checkContractStatus_other.
  - intros id. unfold has_id.
    by rewrite checkContractStatus_other, Hid.
Qed.

(** X8: an id parameter that no stored contract carries, a parameter
    that parseInt does not read as a number among them, is answered 404
    by GET and by PUT, and nothing is written. *)
Theorem unknown_id_not_found now wr id body st :
  (∀ c n, c ∈ CONTRACTS_FILE st → parseInt id = Some n →
          c !! "id" ≠ Some (VNum n)) →
  get_contract now id st = (Err 404 "Contract not found" None, st) ∧
  put_contract now wr id body st = (Err 404 "Contract not found" None, st).
Proof.
  intros Habs. unfold get_contract, put_contract.
  by rewrite (list_find_absent id _ Habs).
Qed.


(** X10: PUT and DELETE do not look at the outcome of the write.  When
    the write fails they still answer with their success message, and
    the store is as it was. *)
Theorem write_failure_answers_success now id body st index existing :
  CONTRACTS_FILE st !! index = Some existing →
  has_id id existing = true →
  (∀ j c, CONTRACTS_FILE st !! j = Some c → (j < index)%nat → has_id id c = false) →
  (∃ updated, put_contract now false id body st = (Ok (UpdatedP updated), st) ∧
              status_code (put_contract now false id body st).1 = 200 ∧
              updated !! "salary" =
                match body !! "salary" with
                | Some v => Some v
                | None => existing !! "salary"
                end) ∧
  delete_contract false id st = (Ok DeletedP, st) ∧
  existing ∈ CONTRACTS_FILE (delete_contract false id st).2.
Proof.
  intros Hidx Hid Hfirst.
  assert (Hfind : list_find (λ c, has_id id c = true) (CONTRACTS_FILE st)
                  = Some (index, existing)).
  { apply list_find_Some. split_and!; [done..|].
    intros j c Hj Hlt. by rewrite (Hfirst j c Hj Hlt). }
  split_and!.
  - eexists. unfold put_contract. rewrite Hfind. split_and!; [done..|].
    rewrite checkContractStatus_other by done.
    rewrite lookup_union. by destruct (body !! "salary"), (existing !! "salary").
  - done.
  - simpl. by eapply list_elem_of_lookup_2.
Qed.

(** X11: a DELETE that is written removes every contract that carries
    the identifier and nothing else, keeps the order of the others and
    the chat history; afterwards GET with that id is answered 404 and a
    second DELETE changes nothing. *)
Theorem delete_contract_removes now id st :
  let st' := (delete_contract true id st).2 in
  (∀ c, c ∈ CONTRACTS_FILE st' ↔ c ∈ CONTRACTS_FILE st ∧ has_id id c = false) ∧
  CONTRACTS_FILE st' `sublist_of` CONTRACTS_FILE st ∧
  CHAT_HISTORY_FILE st' = CHAT_HISTORY_FILE st ∧
  get_contract now id st' = (Err 404 "Contract not found" None, st') ∧
  delete_contract true id st' = (Ok DeletedP, st').
Proof.
  intros st'. subst st'. unfold delete_contract at 1 2 3 4 5 6.
  cbn [writeJSON_contracts snd CONTRACTS_FILE CHAT_HISTORY_FILE].
  set (kept := filter (λ c, has_id id c = false) (CONTRACTS_FILE st)).
  assert (Hkept : ∀ c, c ∈ kept → has_id id c = false).
  { intros c Hc. by apply list_elem_of_filter in Hc as [? _]. }
  split_and!.
  - intros c. unfold kept. rewrite list_elem_of_filter. tauto.
  - apply sublist_filter.
  - done.
  - unfold get_contract. cbn [CONTRACTS_FILE].
    replace (list_find _ kept) with (@None (nat * obj)); [done|].
    symmetry. apply list_find_None, Forall_forall. intros c Hc.
    by rewrite (Hkept c Hc).
  - unfold delete_contract. cbn [writeJSON_contracts snd CONTRACTS_FILE].
    by rewrite (filter_keeps_all _ kept Hkept).
Qed.

End ContractStoreMore.

(** * Further properties of the search and of the alerts *)

Section SearchMore.
Context `{Host}.

Lemma includes_empty s : includes s "" = true.
Proof. by destruct s. Qed.

(** X12: a query that lower-cases to the empty string matches every
    contract: the search answers with the whole store, in order. *)
Theorem post_search_empty_query body st term :
  body !! "query" = Some (VStr term) →
  toLowerCase term = "" →
  (∀ c k, c ∈ CONTRACTS_FILE st → k ∈ searched_fields →
          ∃ s, c !! k = Some (VStr s)) →
  post_search body st =
  (Ok (ResultsP (CONTRACTS_FILE st) (length (CONTRACTS_FILE st))), st).
Proof.
  intros Hq Hlow Hstr. unfold post_search. rewrite Hq. cbn [call_toLowerCase bind].
  rewrite Hlow.
  rewrite (Array_filter_total _ (λ _, true)).
  - by rewrite (filter_keeps_all _ _ (λ _ _, eq_refl)).
  - intros c Hc.
    destruct (Hstr c "title" Hc) as [s1 H1]; [in_list|].
    destruct (Hstr c "company" Hc) as [s2 H2]; [in_list|].
    destruct (Hstr c "client_name" Hc) as [s3 H3]; [in_list|].
    destruct (Hstr c "status" Hc) as [s4 H4]; [in_list|].
    rewrite (search_match_strings _ c s1 s2 s3 s4) by done.
    by rewrite !includes_empty.
Qed.

(** The callback throws nothing but a TypeError. *)
Lemma search_match_throws searchTerm c e :
  search_match searchTerm c = Throw e → e = TypeError.
Proof.
  unfold search_match, or_lazy, field_includes, call_toLowerCase.
  destruct (c !! "title") as [[| | |s1]|]; simpl; try by intros [= <-].
  destruct (includes _ _); [done|].
  destruct (c !! "company") as [[| | |s2]|]; simpl; try by intros [= <-].
  destruct (includes _ _); [done|].
  destruct (c !! "client_name") as [[| | |s3]|]; simpl; try by intros [= <-].
  destruct (includes _ _); [done|].
  destruct (c !! "status") as [[| | |s4]|]; simpl; by intros [= <-].
Qed.

(** A title that is not a string makes the callback throw at once. *)
Lemma search_match_bad_title searchTerm (c : obj) :
  (∀ s, c !! "title" ≠ Some (VStr s)) →
  search_match searchTerm c = Throw TypeError.
Proof.
  intros Hbad. unfold search_match, or_lazy, field_includes, call_toLowerCase.
  destruct (c !! "title") as [[| | |s1]|]; try done. by destruct (Hbad s1).
Qed.

Lemma Array_filter_poisoned {A} (p : A → result bool) (l : list A) x :
  x ∈ l → p x = Throw TypeError →
  (∀ y e, p y = Throw e → e = TypeError) →
  Array_filter p l = Throw TypeError.
Proof.
  intros Hx Hpx Hty. induction l as [|y l IH]; [by apply elem_of_nil in Hx|].
  simpl. destruct (p y) as [b|e] eqn:Hpy; simpl.
  - apply elem_of_cons in Hx as [->|Hx]; [congruence|]. by rewrite IH.
  - by rewrite (Hty y e Hpy).
Qed.

Lemma Array_filter_sublist {A} (p : A → result bool) (l r : list A) :
  Array_filter p l = Return r → r `sublist_of` l.
Proof.
  revert r. induction l as [|x l IH]; intros r; simpl.
  - intros [= <-]. constructor.
  - destruct (p x) as [b|e]; simpl; [|done].
    destruct (Array_filter p l) as [r'|e]; simpl; [|done].
    intros [= <-]. destruct b; [apply sublist_skip|apply sublist_cons]; by apply IH.
Qed.

Lemma Array_filter_throws {A} (p : A → result bool) (l : list A) e :
  (∀ y e', p y = Throw e' → e' = TypeError) →
  Array_filter p l = Throw e → e = TypeError.
Proof.
  intros Hty. induction l as [|x l IH]; simpl; [done|].
  destruct (p x) as [b|e'] eqn:Hpx; simpl.
  - destruct (Array_filter p l) as [r|e']; simpl; [done|].
    intros [= <-]. by apply IH.
  - intros [= <-]. by apply (Hty x).
Qed.

(** X13: when the search fails.  A body whose query is absent or is not
    a string is answered 500 with a TypeError; so is every search, for
    whatever string, once one stored contract has a title that is
    absent or is not a string.  Nothing is written. *)
Theorem post_search_type_errors body st :
  ((∀ s, body !! "query" ≠ Some (VStr s)) →
   post_search body st = (Caught TypeError, st)) ∧
  (∀ term c, body !! "query" = Some (VStr term) →
     c ∈ CONTRACTS_FILE st → (∀ s, c !! "title" ≠ Some (VStr s)) →
     post_search body st = (Caught TypeError, st)).
Proof.
  split.
  - intros Hbad. unfold post_search, call_toLowerCase.
    destruct (body !! "query") as [[| | |s]|]; try done. by destruct (Hbad s).
  - intros term c Hq Hc Hbad. unfold post_search. rewrite Hq.
    cbn [call_toLowerCase bind].
    rewrite (Array_filter_poisoned _ _ c Hc); [done| |].
    + by apply search_match_bad_title.
    + intros y e. apply search_match_throws.
Qed.

(** X14: whatever the request and the store, the search writes nothing;
    when it answers 200 the results are a subsequence of the store, as
    stored, and count is their number; otherwise the answer is the 500
    of a TypeError. *)
Theorem post_search_frame body st :
  (post_search body st).2 = st ∧
  ((∃ results, (post_search body st).1 = Ok (ResultsP results (length results)) ∧
               results `sublist_of` CONTRACTS_FILE st) ∨
   (post_search body st).1 = Caught TypeError).
Proof.
  unfold post_search, call_toLowerCase.
  destruct (body !! "query") as [[| | |term]|]; simpl; try (split; [done|by right]).
  destruct (Array_filter _ _) as [results|e] eqn:Hf; simpl.
  - split; [done|]. left. exists results. split; [done|].
    by eapply Array_filter_sublist.
  - split; [done|]. right.
    apply Array_filter_throws in Hf as ->; [done|].
    intros y e'. apply search_match_throws.
Qed.

(** X15: what an alert says about the days.  The handler reads the
    clock twice for an alert: at [now] for the status and, later, at
    [today] for days_remaining.  Every alert of GET /api/alerts comes
    from a stored contract whose end date is a date (a contract whose end
    date is no date gets no alert); with d the whole days from [now] to
    that date, d is at most 30 and the status is expired exactly when d is
    negative, expiring otherwise; days_remaining is the number of whole
    days from [today], which is at most d, is d when the two readings
    agree, and is d or d - 1 when they are less than a day apart.  count is
    the number of alerts, at most the number of contracts. *)
Theorem get_alerts_days_remaining now today st alerts count :
  now ≤ today →
  (get_alerts now today st).1 = Ok (AlertsP alerts count) →
  count = length alerts ∧
  (length alerts ≤ length (CONTRACTS_FILE st))%nat ∧
  (∀ a, a ∈ alerts →
     ∃ c d d', c ∈ CONTRACTS_FILE st ∧
          a !! "contract_id" = c !! "id" ∧
          a !! "end_date" = c !! "end_date" ∧
          new_Date (c !! "end_date") ≠ None ∧
          daysRemaining now c = Some d ∧
          daysRemaining today c = Some d' ∧
          a !! "days_remaining" = Some (VNum d') ∧
          a !! "status" = Some (VStr (if d <? 0 then "expired" else "expiring")) ∧
          d' ≤ d ∧ d ≤ 30 ∧
          (today = now → d' = d) ∧
          (today - now < MS_PER_DAY → d - 1 ≤ d')).
Proof.
  intros Hclock. unfold get_alerts. cbn [fst]. intros [= <- <-].
  rewrite (alerts_fold now today (CONTRACTS_FILE st) []). cbn [app].
  assert (Hdue : ∀ c, due now c →
            ∃ d, daysRemaining now c = Some d ∧ d ≤ 30 ∧
                 derived_status now c
                 = Some (VStr (if d <? 0 then "expired" else "expiring"))).
  { intros c Hc. unfold due, derived_status in *.
    destruct (daysRemaining now c) as [d|] eqn:Hd.
    - exists d. split; [done|].
      rewrite (checkContractStatus_cases now c d Hd) in *.
      destruct (Z.ltb_spec d 0); [split; [lia|done]|].
      destruct (Z.leb_spec d 30); [split; [lia|done]|].
      by destruct Hc as [[=]|[=]].
    - unfold daysRemaining in Hd.
      destruct (new_Date (c !! "end_date")) eqn:Hend; [done|].
      rewrite (checkContractStatus_invalid now c Hend) in Hc.
      by destruct Hc as [[=]|[=]]. }
  split_and!.
  - done.
  - rewrite length_map. apply length_filter.
  - intros a Ha. change (map ?f ?l) with (f <$> l) in Ha.
    apply list_elem_of_fmap in Ha as (c & -> & Hc).
    apply list_elem_of_filter in Hc as [Hdue' Hc].
    destruct (Hdue c Hdue') as (d & Hd & Hle & Hs).
    destruct (alert_of_lookup now today c)
      as (Hcid & _ & _ & Hdate & Hdays & Hstatus & _).
    destruct (new_Date (c !! "end_date")) as [e|] eqn:Hend;
      [|by unfold daysRemaining in Hd; rewrite Hend in Hd].
    assert (Hnow : daysRemaining now c = Some ((e - now) / MS_PER_DAY))
      by (unfold daysRemaining; by rewrite Hend).
    assert (Htoday : daysRemaining today c = Some ((e - today) / MS_PER_DAY))
      by (unfold daysRemaining; by rewrite Hend).
    rewrite Hnow in Hd. injection Hd as Hd.
    exists c, d, ((e - today) / MS_PER_DAY).
    split; [done|]. split; [done|]. split; [done|].
    split; [by rewrite Hend|]. split; [by rewrite Hnow, Hd|].
    split; [done|]. split; [by rewrite Hdays, Htoday|].
    split; [by rewrite Hstatus|].
    split; [subst d; apply Z.div_le_mono; [done|lia]|].
    split; [done|].
    split; [intros ->; by subst d|].
    intros Hday. subst d. unfold MS_PER_DAY in *.
    Z.div_mod_to_equations. lia.
Qed.

End SearchMore.

(** * Further properties of the chat handler and of the briefing *)

Section ChatMore.
Context `{Host}.

Lemma append_assoc (a b c : string) : (a +:+ b) +:+ c = a +:+ (b +:+ c).
Proof.
  induction a as [|x a IH]; [done|].
  cbv [String.append]. fold String.append. by rewrite IH.
Qed.

Lemma occurs_in_skip t a s : occurs_in t s → occurs_in t (a +:+ s).
Proof.
  intros (pre & post & ->). exists (a +:+ pre), post. by rewrite append_assoc.
Qed.

Lemma occurs_in_here3 a b c rest :
  occurs_in (a +:+ b +:+ c) (a +:+ b +:+ c +:+ rest).
Proof. exists "", rest. by rewrite !append_assoc. Qed.

(** The loop of the briefing appends the blocks in store order. *)
Lemma fold_left_blocks (contracts : list obj) (acc tail : string) :
  fold_left (λ acc c, acc +:+ contract_block c) contracts acc +:+ tail =
  acc +:+ foldr (λ c s, contract_block c +:+ s) tail contracts.
Proof.
  revert acc. induction contracts as [|c cs IH]; intros acc;
    cbn [fold_left foldr]; [done|].
  by rewrite IH, append_assoc.
Qed.

Lemma foldr_blocks_tail (contracts : list obj) (tail : string) :
  foldr (λ c s, contract_block c +:+ s) tail contracts =
  foldr (λ c s, contract_block c +:+ s) "" contracts +:+ tail.
Proof.
  induction contracts as [|c cs IH]; cbn [foldr]; [done|].
  by rewrite IH, append_assoc.
Qed.

(** X16: the briefing is the heading (with the number of contracts),
    then one block per stored contract, in store order, then the
    instructions.  So the block of every stored contract occurs in it,
    and the block prints the stored status and, for a falsy salary, Not
    specified. *)
Theorem contractSummary_blocks contracts :
  contractSummary contracts =
    summary_head contracts +:+
    foldr (λ c s, contract_block c +:+ s) summary_instructions contracts ∧
  (∀ c, c ∈ contracts → occurs_in (contract_block c) (contractSummary contracts)) ∧
  (∀ c, occurs_in ("  - Status: " +:+ ToString (c !! "status") +:+ nl)
                  (contract_block c)) ∧
  (∀ c, truthy (c !! "salary") = false →
        occurs_in ("  - Salary: Not specified" +:+ nl) (contract_block c)).
Proof.
  assert (Heq : contractSummary contracts =
    summary_head contracts +:+
    foldr (λ c s, contract_block c +:+ s) summary_instructions contracts)
    by apply fold_left_blocks.
  split; [exact Heq|]. split_and!.
  - intros c Hc. rewrite Heq.
    apply list_elem_of_split in Hc as (l1 & l2 & ->).
    rewrite foldr_app. cbn [foldr]. rewrite (foldr_blocks_tail l1).
    exists (summary_head (l1 ++ c :: l2) +:+
            foldr (λ c s, contract_block c +:+ s) "" l1),
           (foldr (λ c s, contract_block c +:+ s) summary_instructions l2).
    by rewrite !append_assoc.
  - intros c. unfold contract_block.
    do 15 apply occurs_in_skip. apply occurs_in_here3.
  - intros c Hs. unfold contract_block.
    assert (Hf : formatINR (c !! "salary") = "Not specified").
    { unfold formatINR. destruct (c !! "salary"); [|done]. by rewrite Hs. }
    rewrite Hf. do 24 apply occurs_in_skip.
    change "  - Salary: Not specified"
      with ("  - Salary: " +:+ "Not specified").
    rewrite (append_assoc "  - Salary: "). apply occurs_in_here3.
Qed.

(** What the try block of POST /api/chat computes. *)
Lemma post_chat_cases now wr (ollama : inference) body st :
  let k := session_name now body in
  let old := CHAT_HISTORY_FILE st in
  (∃ e, post_chat now wr ollama body st = (Err 500 OLLAMA_HINT (Some e), st) ∧
        ((∀ v, ollama (contractSummary (CONTRACTS_FILE st)) (body !! "message")
               ≠ Responded true (Content v)) ∨
         read_history old k = Inherited)) ∨
  (∃ v, ollama (contractSummary (CONTRACTS_FILE st)) (body !! "message")
          = Responded true (Content v) ∧
        read_history old k ≠ Inherited ∧
        post_chat now wr ollama body st =
          (Ok (ChatP v (or_else (body !! "chat_id") (VStr (pretty now)))
                 (toISOString now)),
           if wr
           then {| CONTRACTS_FILE := CONTRACTS_FILE st;
                   CHAT_HISTORY_FILE :=
                     <[k := default [] (old !! k) ++
                            [exchange_of now (body !! "message") v]]> old |}
           else st)).
Proof.
  intros k old. subst k old. unfold post_chat, ask, session_name.
  destruct (ollama _ _) as [|[|] [| |v]]; simpl;
    try (left; eexists; split; [done|left; by intros ?]).
  unfold append_exchange, read_history.
  destruct (CHAT_HISTORY_FILE st !! _) as [history|] eqn:Hk; simpl.
  - right. exists v. split_and!; [done..|]. by destruct wr.
  - case_bool_decide; simpl.
    + left. eexists. split; [done|]. by right.
    + right. exists v. split_and!; [done..|]. by destruct wr.
Qed.

(** X17: the chat history is append-only.  Whatever the request, the
    upstream outcome and the outcome of the write, POST /api/chat never
    changes contracts.json, leaves every session other than its own as
    it was, and keeps what its own session held as a prefix, followed by
    at most one new exchange; when it answers an error nothing is
    written at all. *)
Theorem post_chat_append_only now wr (ollama : inference) body st :
  let r := (post_chat now wr ollama body st).1 in
  let st' := (post_chat now wr ollama body st).2 in
  CONTRACTS_FILE st' = CONTRACTS_FILE st ∧
  (∀ k, k ≠ session_name now body →
        CHAT_HISTORY_FILE st' !! k = CHAT_HISTORY_FILE st !! k) ∧
  (∀ k history, CHAT_HISTORY_FILE st !! k = Some history →
     ∃ history', CHAT_HISTORY_FILE st' !! k = Some history' ∧
                 history `prefix_of` history' ∧
                 (length history' ≤ S (length history))%nat) ∧
  (status_code r ≠ 200 → st' = st).
Proof.
  intros r st'. subst r st'.
  destruct (post_chat_cases now wr ollama body st)
    as [(e & -> & _)|(v & _ & _ & ->)]; cbn [fst snd].
  - split_and!; [done..| |done].
    intros k history Hk. exists history. split_and!; [done..|lia].
  - destruct wr; cbn [CONTRACTS_FILE CHAT_HISTORY_FILE].
    + split_and!; [done| | |done].
      * intros k Hk. by rewrite lookup_insert_ne.
      * intros k history Hk.
        destruct (decide (k = session_name now body)) as [->|Hne].
        -- rewrite lookup_insert_eq, Hk. simpl. eexists. split; [done|].
           split; [by apply prefix_app_r|]. rewrite length_app. simpl. lia.
        -- rewrite lookup_insert_ne by done. exists history.
           split_and!; [done..|lia].
    + split_and!; [done..| |done].
      intros k history Hk. exists history. split_and!; [done..|lia].
Qed.

(** X18: exactly when POST /api/chat answers 200: the endpoint answered
    with a success status and a JSON body that has a message, and the
    session name does not read as a name inherited from
    Object.prototype.  In every other case the answer is the 500 with
    the remediation hint: also for a reply that is not JSON or has no
    message, although the service is then running. *)
Theorem post_chat_ok_iff now wr (ollama : inference) body st :
  (status_code (post_chat now wr ollama body st).1 = 200 ↔
   (∃ v, ollama (contractSummary (CONTRACTS_FILE st)) (body !! "message")
           = Responded true (Content v)) ∧
   read_history (CHAT_HISTORY_FILE st) (session_name now body) ≠ Inherited) ∧
  (status_code (post_chat now wr ollama body st).1 ≠ 200 →
   ∃ e, post_chat now wr ollama body st = (Err 500 OLLAMA_HINT (Some e), st)).
Proof.
  destruct (post_chat_cases now wr ollama body st)
    as [(e & -> & Hwhy)|(v & Hup & Hread & ->)]; cbn [fst status_code].
  - split; [|by eexists]. split; [done|].
    intros [[v Hv] Hread]. destruct Hwhy as [Hno|Hinh]; [by destruct (Hno v)|done].
  - split; [|done]. split; [|done]. intros _. split; [by exists v|done].
Qed.

(** The decimal text of a number starts with a digit or a dash. *)
Lemma pretty_N_char_digit x :
  pretty_N_char x ∈ ["0"; "1"; "2"; "3"; "4"; "5"; "6"; "7"; "8"; "9"; "-"]%char.
Proof. unfold pretty_N_char. repeat case_match; in_list. Qed.

Lemma pretty_N_go_head x s :
  (0 < x)%N ∨
  (∃ c s', s = String c s' ∧
           c ∈ ["0"; "1"; "2"; "3"; "4"; "5"; "6"; "7"; "8"; "9"; "-"]%char) →
  ∃ c s', pretty_N_go x s = String c s' ∧
          c ∈ ["0"; "1"; "2"; "3"; "4"; "5"; "6"; "7"; "8"; "9"; "-"]%char.
Proof.
  revert s. induction (N.lt_wf_0 x) as [x _ IH]; intros s Hs.
  destruct (decide (x = 0%N)) as [->|Hx].
  - rewrite pretty_N_go_0. destruct Hs as [?|?]; [lia|done].
  - rewrite pretty_N_go_step by lia. apply IH.
    + apply N.div_lt; lia.
    + right. eexists _, _. split; [done|]. apply pretty_N_char_digit.
Qed.

Lemma pretty_Z_head (z : Z) :
  ∃ c s', pretty z = String c s' ∧
          c ∈ ["0"; "1"; "2"; "3"; "4"; "5"; "6"; "7"; "8"; "9"; "-"]%char.
Proof.
  destruct z as [|p|p].
  - exists "0"%char, "". split; [done|in_list].
  - unfold pretty, pretty_Z, pretty, pretty_positive, pretty, pretty_N.
    rewrite decide_False by done. apply pretty_N_go_head. left. lia.
  - eexists "-"%char, _. split; [done|in_list].
Qed.

(** The text of a number is no name of Object.prototype. *)
Lemma pretty_Z_not_inherited (z : Z) : pretty z ∉ Object_prototype_names.
Proof.
  intros Hin. destruct (pretty_Z_head z) as (c & s' & Heq & Hc).
  rewrite Heq in Hin. unfold Object_prototype_names in Hin.
  rewrite !elem_of_cons, elem_of_nil in Hin.
  rewrite !elem_of_cons, elem_of_nil in Hc.
  repeat (destruct Hin as [Hin|Hin];
          [injection Hin as -> _;
           repeat (destruct Hc as [Hc|Hc]; [discriminate Hc|]); done|]).
  done.
Qed.

(** X19: a chat request with no chat_id (or a falsy one) is filed under
    the decimal text of the clock: the answer carries that text as
    chat_id and the exchange is appended to the session of that name,
    which is created when absent.  Two such requests share a session
    exactly when they read the same millisecond. *)
Theorem post_chat_default_session now (ollama : inference) body st botResponse :
  truthy (body !! "chat_id") = false →
  ollama (contractSummary (CONTRACTS_FILE st)) (body !! "message")
    = Responded true (Content botResponse) →
  session_name now body = pretty now ∧
  post_chat now true ollama body st =
    (Ok (ChatP botResponse (VStr (pretty now)) (toISOString now)),
     {| CONTRACTS_FILE := CONTRACTS_FILE st;
        CHAT_HISTORY_FILE :=
          <[pretty now := default [] (CHAT_HISTORY_FILE st !! pretty now) ++
                          [exchange_of now (body !! "message") botResponse]]>
          (CHAT_HISTORY_FILE st) |}) ∧
  (∀ now', session_name now' body = session_name now body ↔ now' = now).
Proof.
  intros Hfalsy Hup.
  assert (Hname : ∀ t, session_name t body = pretty t).
  { intros t. unfold session_name. by rewrite or_else_falsy. }
  split; [apply Hname|]. split.
  - destruct (post_chat_cases now true ollama body st)
      as [(e & _ & [Hno|Hinh])|(v & Hv & _ & ->)].
    + by destruct (Hno botResponse).
    + exfalso. rewrite Hname in Hinh. unfold read_history in Hinh.
      destruct (CHAT_HISTORY_FILE st !! pretty now); [done|].
      rewrite bool_decide_eq_false_2 in Hinh by apply pretty_Z_not_inherited.
      done.
    + rewrite Hup in Hv. injection Hv as <-.
      by rewrite Hname, or_else_falsy.
  - intros now'. rewrite !Hname. split; [apply (inj pretty)|by intros ->].
Qed.

End ChatMore.

(** * Start-up and the presentation layer *)

Section Startup.

(** X20: initializeFiles creates what is missing and nothing else.  A
    file that exists, readable or not, is left as it is; what readJSON
    returns is the same before and after; when both writes can succeed
    both files exist afterwards and a second run changes nothing; and
    when contracts.json is missing and cannot be written,
    chat_history.json is not created either. *)
Theorem initializeFiles_spec w1 w2 d :
  read_files (initializeFiles w1 w2 d) = read_files d ∧
  (contracts_json d ≠ Missing →
   contracts_json (initializeFiles w1 w2 d) = contracts_json d) ∧
  (chat_history_json d ≠ Missing →
   chat_history_json (initializeFiles w1 w2 d) = chat_history_json d) ∧
  (contracts_json (initializeFiles true true d) ≠ Missing ∧
   chat_history_json (initializeFiles true true d) ≠ Missing ∧
   initializeFiles w1 w2 (initializeFiles true true d)
     = initializeFiles true true d) ∧
  (contracts_json d = Missing → w1 = false → initializeFiles w1 w2 d = d).
Proof.
  destruct d as [[| |cs] [| |h]], w1, w2; split_and!; done.
Qed.

(** X21: what the chat window shows for a stored history: the welcome
    message, then for the i-th exchange the user's message at position
    2i+1 and the reply at position 2i+2, each with the stored text. *)
Theorem formattedMessages_lookup welcome (messages : list obj) :
  formattedMessages welcome messages !! 0%nat = Some welcome ∧
  length (formattedMessages welcome messages) = S (2 * length messages) ∧
  ∀ i msg, messages !! i = Some msg →
    ∃ u b, formattedMessages welcome messages !! (2 * i + 1)%nat = Some u ∧
           formattedMessages welcome messages !! (2 * i + 2)%nat = Some b ∧
           u !! "role" = Some (VStr "user") ∧ u !! "content" = msg !! "user" ∧
           b !! "role" = Some (VStr "bot") ∧ b !! "content" = msg !! "bot".
Proof.
  unfold formattedMessages. split; [done|]. split.
  - simpl. f_equal. induction messages as [|m ms IH]; simpl; [done|].
    rewrite IH. lia.
  - intros i. replace (2 * i + 1)%nat with (S (2 * i)) by lia.
    replace (2 * i + 2)%nat with (S (S (2 * i))) by lia.
    cbn [lookup list_lookup]. revert i.
    induction messages as [|m ms IH]; intros i msg Hi; [done|].
    destruct i as [|i]; simpl in Hi.
    + injection Hi as ->. eexists _, _. split; [reflexivity|].
      split; [reflexivity|].
      unfold set_prop.
      destruct (msg !! "user"), (msg !! "bot"); by simplify_map_eq.
    + destruct (IH i msg Hi) as (u & b & Hu & Hb & Hrest).
      exists u, b. split_and!; [| |apply Hrest..].
      * replace (2 * S i)%nat with (S (S (2 * i))) by lia. exact Hu.
      * replace (2 * S i)%nat with (S (S (2 * i))) by lia. exact Hb.
Qed.

End Startup.

(** * Worked requests on the reference host *)

Import Node Sample Scenario.

(** ** The status engine at the boundaries *)

(** The classification at work: in November the second sample contract,
    which ends on 2027-03-31, has 148 days left and is active. *)
Lemma checkContractStatus_by_days_dev :
  new_Date (dev !! "end_date") = Some 1806451200000 ∧
  daysRemaining november dev = Some 148 ∧
  derived_status november dev = Some (VStr "active").
Proof.
  assert (Hend : new_Date (dev !! "end_date") = Some 1806451200000)
    by (vm_compute; reflexivity).
  split; [exact Hend|].
  destruct (checkContractStatus_by_days november dev 1806451200000 Hend)
    as (d & Hd & _ & _ & _ & Hactive & _).
  assert (Hd' : daysRemaining november dev = Some 148) by (vm_compute; reflexivity).
  split; [exact Hd'|].
  apply Hactive. rewrite Hd' in Hd. injection Hd as <-. lia.
Defined.

(** C1, as stated, fails on calendar days.  At noon (UTC) of 2026-11-02 a
    contract whose end_date is 2026-11-02, the current day, has
    daysRemaining = floor(-0.5) = -1 and is expired, not expiring; a
    contract whose end_date is 31 calendar days later has
    daysRemaining = floor(30.5) = 30 and is expiring, not active. *)
Lemma checkContractStatus_today_expired :
  toISOString november = "2026-11-02T12:00:00.000Z" ∧
  ends_today !! "end_date" = Some (VStr "2026-11-02") ∧
  (∃ endDate, new_Date (ends_today !! "end_date") = Some endDate ∧
              utc_day endDate = utc_day november) ∧
  daysRemaining november ends_today = Some (-1) ∧
  derived_status november ends_today = Some (VStr "expired") ∧
  derived_status november ends_today ≠ Some (VStr "expiring") ∧
  (∃ endDate, new_Date (ends_in_31_days !! "end_date") = Some endDate ∧
              utc_day endDate = utc_day november + 31) ∧
  daysRemaining november ends_in_31_days = Some 30 ∧
  derived_status november ends_in_31_days = Some (VStr "expiring") ∧
  derived_status november ends_in_31_days ≠ Some (VStr "active").
Proof.
  split_and!.
  - vm_compute. reflexivity.
  - vm_compute. reflexivity.
  - exists 1793577600000. split; vm_compute; reflexivity.
  - vm_compute. reflexivity.
  - vm_compute. reflexivity.
  - vm_compute. discriminate.
  - exists 1796256000000. split; vm_compute; reflexivity.
  - vm_compute. reflexivity.
  - vm_compute. reflexivity.
  - vm_compute. discriminate.
Qed.

(** An end date that is no date at all falls through both comparisons. *)
Lemma checkContractStatus_no_date :
  derived_status november (<["end_date" := VStr "soon"]> dev)
  = Some (VStr "active").
Proof. vm_compute. reflexivity. Qed.

(** ** Creating and fetching *)

Lemma two_contracts_cases (P : obj → Prop) :
  P qa → P dev → ∀ c, c ∈ CONTRACTS_FILE two_contracts → P c.
Proof.
  intros Hqa Hdev c Hc. simpl in Hc.
  apply elem_of_cons in Hc as [->|Hc]; [done|].
  apply elem_of_cons in Hc as [->|Hc]; [done|].
  by apply elem_of_nil in Hc.
Qed.

(** The identifiers 1 and 2 are safe integers. *)
Lemma two_contracts_safe : safe_ids (CONTRACTS_FILE two_contracts).
Proof.
  unfold safe_ids.
  apply (two_contracts_cases
           (λ c, ∃ n, c !! "id" = Some (VNum n) ∧ Z.abs n < TWO_53)).
  - exists 1. split; reflexivity.
  - exists 2. split; reflexivity.
Qed.



(** C5 at work: the request with no end date is refused and nothing is
    stored. *)
Lemma post_contracts_missing_field_undated :
  undated_body !! "end_date" = None ∧
  post_contracts november true undated_body two_contracts
    = (Err 400 "Missing required fields" None, two_contracts).
Proof.
  assert (Hnone : undated_body !! "end_date" = None) by (vm_compute; reflexivity).
  split; [exact Hnone|].
  apply (post_contracts_missing_field november true undated_body two_contracts
           "end_date").
  - in_list.
  - left. exact Hnone.
Defined.

(** ** Deleting and updating *)

(** C6 at work: no contract has the identifier 99. *)
Lemma delete_contract_absent_99 :
  delete_contract true "99" two_contracts = (Ok DeletedP, two_contracts) ∧
  delete_contract true "99" (delete_contract true "99" two_contracts).2
    = (Ok DeletedP, two_contracts) ∧
  status_code (delete_contract true "99" two_contracts).1 = 200.
Proof.
  apply (delete_contract_absent true true "99" two_contracts).
  intros c n Hc Hparse. revert c Hc.
  assert (Hn : n = 99) by (vm_compute in Hparse; congruence). subst n.
  apply two_contracts_cases; vm_compute; discriminate.
Defined.



(** ** Alerts and search *)

(** The scenario of C4: in November the first sample contract is expired
    and the second is active; there is exactly one alert, for contract 1. *)
Lemma get_alerts_two_contracts :
  derived_status november qa = Some (VStr "expired") ∧
  derived_status november dev = Some (VStr "active") ∧
  ∃ a, get_alerts november november two_contracts
         = (Ok (AlertsP [a] 1), two_contracts) ∧
       a !! "contract_id" = Some (VNum 1) ∧
       a !! "status" = Some (VStr "expired") ∧
       a !! "days_remaining" = Some (VNum (-155)) ∧
       a !! "message" = Some (VStr "Contract 'Quality Assurance' is expired").
Proof.
  split; [vm_compute; reflexivity|]. split; [vm_compute; reflexivity|].
  exists (alert_of november (checkContractStatus november qa)).
  split_and!.
  - reflexivity.
  - vm_compute. reflexivity.
  - vm_compute. reflexivity.
  - vm_compute. reflexivity.
  - vm_compute. reflexivity.
Qed.

(** The search at work: the query quality finds the contract titled
    Quality Assurance and nothing else. *)
Lemma post_search_spec_quality :
  post_search {[ "query" := VStr "quality" ]} two_contracts
    = (Ok (ResultsP [qa] 1), two_contracts) ∧
  ∃ results,
    post_search {[ "query" := VStr "quality" ]} two_contracts
      = (Ok (ResultsP results (length results)), two_contracts) ∧
    ∀ c, c ∈ results ↔
         c ∈ CONTRACTS_FILE two_contracts ∧ search_hit "quality" c.
Proof.
  split; [reflexivity|].
  destruct (post_search_spec {[ "query" := VStr "quality" ]} two_contracts "quality")
    as (results & keep & Hsearch & _ & _ & _ & Hin).
  - vm_compute. reflexivity.
  - intros c k Hc. revert c Hc k.
    apply (two_contracts_cases
             (λ c, ∀ k, k ∈ searched_fields → ∃ s, c !! k = Some (VStr s)));
      intros k; unfold searched_fields; rewrite !elem_of_cons, elem_of_nil;
      intros [->|[->|[->|[->|[]]]]]; eexists; reflexivity.
  - exists results. split; [exact Hsearch|exact Hin].
Defined.

(** ** Stored status on the read paths *)

(** C2 on the sample contract, created in January, when it was active.
    In November the listing derives expired; the search still matches
    and returns the stored status, and the briefing prints it. *)
Theorem stored_status_in_search_and_briefing :
  let st := (post_contracts january true qa_body no_files).2 in
  CONTRACTS_FILE st = [qa] ∧
  qa !! "status" = Some (VStr "active") ∧
  derived_status november qa = Some (VStr "expired") ∧
  (get_contracts november st).1
    = Ok (ContractsP [<["status" := VStr "expired"]> qa]) ∧
  post_search {[ "query" := VStr "active" ]} st = (Ok (ResultsP [qa] 1), st) ∧
  post_search {[ "query" := VStr "expired" ]} st = (Ok (ResultsP [] 0), st) ∧
  includes (contractSummary (CONTRACTS_FILE st)) ("  - Status: active" +:+ nl)
    = true ∧
  includes (contractSummary (CONTRACTS_FILE st)) "expired" = false.
Proof.
  intros st.
  assert (Hst : st = {| CONTRACTS_FILE := [qa]; CHAT_HISTORY_FILE := ∅ |})
    by reflexivity.
  rewrite Hst. split_and!.
  - reflexivity.
  - vm_compute. reflexivity.
  - vm_compute. reflexivity.
  - reflexivity.
  - reflexivity.
  - reflexivity.
  - vm_compute. reflexivity.
  - vm_compute. reflexivity.
Qed.

(** C8 on the same contract.  In November its status, as every fetch
    shows it, is expired; the search for Expired does not return it, and
    the search for Active does, because the filter reads the status that
    was stored in January.  And once a contract is stored whose title is
    the number 7, which the creation accepts, every search is answered
    500: the filter calls toLowerCase on the title. *)
Theorem post_search_stored_status :
  let st := (post_contracts january true qa_body no_files).2 in
  let st7 := (post_contracts january true numbered_body no_files).2 in
  CONTRACTS_FILE st = [qa] ∧
  derived_status november qa = Some (VStr "expired") ∧
  (get_contract november "1" st).1
    = Ok (ContractP (<["status" := VStr "expired"]> qa)) ∧
  post_search {[ "query" := VStr "Expired" ]} st = (Ok (ResultsP [] 0), st) ∧
  post_search {[ "query" := VStr "Active" ]} st = (Ok (ResultsP [qa] 1), st) ∧
  missing_required numbered_body = false ∧
  (∃ c, CONTRACTS_FILE st7 = [c] ∧ c !! "title" = Some (VNum 7) ∧
        c !! "company" = Some (VStr "Acme")) ∧
  post_search {[ "query" := VStr "acme" ]} st7 = (Caught TypeError, st7) ∧
  status_code (post_search {[ "query" := VStr "acme" ]} st7).1 = 500.
Proof.
  intros st st7.
  assert (Hst : st = {| CONTRACTS_FILE := [qa]; CHAT_HISTORY_FILE := ∅ |})
    by reflexivity.
  set (c7 := checkContractStatus january (newContract january numbered_body [])).
  assert (Hst7 : st7 = {| CONTRACTS_FILE := [c7]; CHAT_HISTORY_FILE := ∅ |})
    by reflexivity.
  rewrite Hst, Hst7. split_and!.
  - reflexivity.
  - vm_compute. reflexivity.
  - reflexivity.
  - reflexivity.
  - reflexivity.
  - vm_compute. reflexivity.
  - exists c7. split; [reflexivity|]. split; vm_compute; reflexivity.
  - reflexivity.
  - reflexivity.
Qed.

(** ** Chat *)

(** C10 at work: with the inference service down nothing is appended. *)
Lemma post_chat_upstream_failure_down :
  ollama_down (contractSummary (CONTRACTS_FILE two_contracts))
    (Some (VStr "What is my salary?")) = Rejected ∧
  ∃ e, post_chat november true ollama_down
         {[ "message" := VStr "What is my salary?" ]} two_contracts
       = (Err 500 OLLAMA_HINT (Some e), two_contracts).
Proof.
  split; [reflexivity|].
  destruct (post_chat_upstream_failure november true ollama_down
              {[ "message" := VStr "What is my salary?" ]} two_contracts)
    as (e & Hchat & _).
  - left. reflexivity.
  - exists e. exact Hchat.
Defined.

(** Two requests under the session name s1, then its history. *)
Lemma chat_twice_then_history_s1 :
  let st1 := (post_chat january true ollama_up
                {[ "chat_id" := VStr "s1"; "message" := VStr "hello" ]}
                two_contracts).2 in
  let st2 := (post_chat november true ollama_up
                {[ "chat_id" := VStr "s1"; "message" := VStr "and now?" ]}
                st1).2 in
  get_chat_history "s1" two_contracts
    = (Err 404 "Chat history not found" None, two_contracts) ∧
  get_chat_history "s1" st2 =
  (Ok (HistoryP "s1" (Some
     [ {[ "timestamp" := VStr "2026-01-05T09:00:00.000Z";
          "user" := VStr "hello"; "bot" := VStr "You have two contracts." ]};
       {[ "timestamp" := VStr "2026-11-02T12:00:00.000Z";
          "user" := VStr "and now?"; "bot" := VStr "You have two contracts." ]} ])),
   st2).
Proof. split; reflexivity. Qed.

(** C9 on the session name constructor, which every object inherits:
    the read is truthy, so no session is created; the inherited value has
    no push, so the request ends in the catch branch and nothing is
    stored; and the history of that name, which no one ever wrote, is not
    answered 404. *)
Theorem chat_session_named_constructor :
  let body : obj := {[ "chat_id" := VStr "constructor"; "message" := VStr "hi" ]} in
  ask ollama_up (contractSummary (CONTRACTS_FILE no_files)) (body !! "message")
    = Return (Some (VStr "You have two contracts.")) ∧
  CHAT_HISTORY_FILE no_files !! "constructor" = None ∧
  post_chat november true ollama_up body no_files
    = (Err 500 OLLAMA_HINT (Some TypeError), no_files) ∧
  get_chat_history "constructor" no_files
    = (Ok (HistoryP "constructor" None), no_files) ∧
  status_code (get_chat_history "constructor" no_files).1 = 200.
Proof.
  intros body. subst body. split_and!.
  - vm_compute. reflexivity.
  - reflexivity.
  - reflexivity.
  - reflexivity.
  - reflexivity.
Qed.

(** ** The further properties at work *)

(** X1 at work: the second sample contract, active in November, was
    active in January. *)
Lemma checkContractStatus_time_monotone_dev :
  january ≤ november ∧
  derived_status november dev = Some (VStr "active") ∧
  derived_status january dev = Some (VStr "active").
Proof.
  assert (Hle : january ≤ november) by (vm_compute; discriminate).
  assert (Hnov : derived_status november dev = Some (VStr "active"))
    by (vm_compute; reflexivity).
  split; [exact Hle|]. split; [exact Hnov|].
  destruct (checkContractStatus_time_monotone january november dev Hle)
    as (_ & _ & Hactive).
  exact (Hactive Hnov).
Defined.

(** X3 at work: the badge of the first sample contract in November. *)
Lemma getStatusClass_of_listed_qa :
  ∃ s, checkContractStatus november qa !! "status" = Some (VStr s) ∧
       getStatusClass (checkContractStatus november qa !! "status")
         = "status-" +:+ s ∧
       getStatusClass (checkContractStatus november qa !! "status") ≠ "".
Proof.
  apply (getStatusClass_of_listed november two_contracts
           (map (checkContractStatus november) [qa; dev])
           (checkContractStatus november qa)).
  - reflexivity.
  - apply list_elem_of_here.
Defined.

Lemma two_contracts_numeric : numeric_ids (CONTRACTS_FILE two_contracts).
Proof.
  unfold numeric_ids.
  apply (two_contracts_cases (λ c, ∃ n, c !! "id" = Some (VNum n)));
    eexists; reflexivity.
Qed.

Lemma two_contracts_distinct : NoDup (ids_of (CONTRACTS_FILE two_contracts)).
Proof.
  change (NoDup [Some (VNum 1); Some (VNum 2)]).
  apply NoDup_cons. split; [|apply NoDup_singleton].
  rewrite list_elem_of_singleton. discriminate.
Qed.

(** X5 at work: a third contract on the two sample contracts. *)
Lemma post_contracts_keeps_ids_distinct_third :
  missing_required qa_body = false ∧
  NoDup (ids_of (CONTRACTS_FILE (post_contracts november true qa_body two_contracts).2)) ∧
  length (CONTRACTS_FILE (post_contracts november true qa_body two_contracts).2)
    = 3%nat.
Proof.
  assert (Hreq : missing_required qa_body = false) by (vm_compute; reflexivity).
  split; [exact Hreq|].
  destruct (post_contracts_keeps_ids_distinct november qa_body two_contracts
              Hreq two_contracts_safe two_contracts_distinct)
    as (_ & Hdup & Hlen & _).
  split; [exact Hdup|exact Hlen].
Defined.

(** X6 at work: deleting contract 1, and giving it a raise. *)
Lemma delete_put_keep_ids_distinct_qa :
  NoDup (ids_of (CONTRACTS_FILE (delete_contract true "1" two_contracts).2)) ∧
  ids_of (CONTRACTS_FILE
            (put_contract november true "1" {[ "salary" := VNum 600000 ]}
               two_contracts).2)
    = ids_of (CONTRACTS_FILE two_contracts).
Proof.
  destruct (delete_put_keep_ids_distinct november true "1"
              {[ "salary" := VNum 600000 ]} two_contracts
              two_contracts_numeric two_contracts_distinct)
    as ((_ & Hdel) & Hput).
  split; [exact Hdel|].
  apply Hput. vm_compute. reflexivity.
Defined.

(** The store with the renamed identifier is what PUT leaves. *)
Lemma odd_ids_reached :
  (put_contract november true "1" renaming_body two_contracts).2 = odd_ids.
Proof. reflexivity. Qed.

(** X7 at work: a creation on the store with the renamed identifier. *)
Lemma post_contracts_nan_id_renamed :
  ToNumber (renamed !! "id") = None ∧
  ∃ created,
    (post_contracts november true qa_body odd_ids).1 = Ok (CreatedP created) ∧
    created !! "id" = Some VNull ∧
    has_id "3" created = false.
Proof.
  assert (Hnan : ToNumber (renamed !! "id") = None) by (vm_compute; reflexivity).
  split; [exact Hnan|].
  destruct (post_contracts_nan_id november qa_body odd_ids renamed)
    as (created & Hpost & Hid & Hunreachable).
  - vm_compute. reflexivity.
  - apply list_elem_of_here.
  - exact Hnan.
  - exists created. split; [by rewrite Hpost|]. split; [exact Hid|].
    apply Hunreachable.
Defined.

(** X8 at work: an id parameter that is no number. *)
Lemma unknown_id_not_found_abc :
  parseInt "abc" = None ∧
  get_contract november "abc" two_contracts
    = (Err 404 "Contract not found" None, two_contracts) ∧
  put_contract november true "abc" qa_body two_contracts
    = (Err 404 "Contract not found" None, two_contracts).
Proof.
  assert (Hnan : parseInt "abc" = None) by (vm_compute; reflexivity).
  split; [exact Hnan|].
  apply (unknown_id_not_found november true "abc" qa_body two_contracts).
  intros c n _ Hparse. rewrite Hnan in Hparse. discriminate Hparse.
Defined.

Lemma dev_is_second :
  CONTRACTS_FILE two_contracts !! 1%nat = Some dev ∧
  has_id "2" dev = true ∧
  ∀ j c, CONTRACTS_FILE two_contracts !! j = Some c → (j < 1)%nat →
         has_id "2" c = false.
Proof.
  split; [reflexivity|]. split; [vm_compute; reflexivity|].
  intros j c Hj Hlt. assert (j = 0%nat) as -> by lia.
  injection Hj as <-. vm_compute. reflexivity.
Qed.


(** X10 at work: contract 2 when the disk refuses the write. *)
Lemma write_failure_answers_success_dev :
  delete_contract false "2" two_contracts = (Ok DeletedP, two_contracts) ∧
  dev ∈ CONTRACTS_FILE (delete_contract false "2" two_contracts).2.
Proof.
  destruct dev_is_second as (Hidx & Hid & Hfirst).
  destruct (write_failure_answers_success november "2"
              {[ "notes" := VStr "onsite" ]} two_contracts 1%nat dev
              Hidx Hid Hfirst)
    as (_ & Hdelete & Hkept).
  split; [exact Hdelete|exact Hkept].
Defined.

(** X12 at work: the empty query. *)
Lemma post_search_empty_query_all :
  post_search {[ "query" := VStr "" ]} two_contracts
    = (Ok (ResultsP [qa; dev] 2), two_contracts).
Proof.
  apply (post_search_empty_query {[ "query" := VStr "" ]} two_contracts "").
  - vm_compute. reflexivity.
  - vm_compute. reflexivity.
  - intros c k Hc. revert c Hc k.
    apply (two_contracts_cases
             (λ c, ∀ k, k ∈ searched_fields → ∃ s, c !! k = Some (VStr s)));
      intros k; unfold searched_fields; rewrite !elem_of_cons, elem_of_nil;
      intros [->|[->|[->|[->|[]]]]]; eexists; reflexivity.
Defined.

(** X15 at work: a contract that ends at midnight, when the handler
    reads the clock a millisecond before midnight for the status and a
    millisecond after it for the days.  The alert says expiring, with
    days_remaining -1. *)
Lemma get_alerts_days_remaining_midnight :
  before_midnight ≤ after_midnight ∧
  (get_alerts before_midnight after_midnight one_contract).1
    = Ok (AlertsP [alert_of after_midnight
                     (checkContractStatus before_midnight ends_tomorrow)] 1) ∧
  ∃ c d d',
    c ∈ CONTRACTS_FILE one_contract ∧
    daysRemaining before_midnight c = Some d ∧
    daysRemaining after_midnight c = Some d' ∧
    d = 0 ∧ d' = -1 ∧
    alert_of after_midnight (checkContractStatus before_midnight ends_tomorrow)
      !! "days_remaining" = Some (VNum d') ∧
    alert_of after_midnight (checkContractStatus before_midnight ends_tomorrow)
      !! "status" = Some (VStr (if d <? 0 then "expired" else "expiring")).
Proof.
  assert (Hclock : before_midnight ≤ after_midnight) by (vm_compute; discriminate).
  assert (Hget : (get_alerts before_midnight after_midnight one_contract).1
    = Ok (AlertsP [alert_of after_midnight
                     (checkContractStatus before_midnight ends_tomorrow)] 1))
    by reflexivity.
  split; [exact Hclock|]. split; [exact Hget|].
  destruct (get_alerts_days_remaining before_midnight after_midnight one_contract
              [alert_of after_midnight
                 (checkContractStatus before_midnight ends_tomorrow)] 1%nat
              Hclock Hget)
    as (_ & _ & Hdays).
  destruct (Hdays (alert_of after_midnight
                     (checkContractStatus before_midnight ends_tomorrow)))
    as (c & d & d' & Hc & _ & _ & _ & Hd & Hd' & Hrem & Hstatus & _).
  { apply list_elem_of_here. }
  apply list_elem_of_singleton in Hc. subst c.
  exists ends_tomorrow, d, d'.
  split; [apply list_elem_of_here|]. split; [exact Hd|]. split; [exact Hd'|].
  split; [vm_compute in Hd; by injection Hd as <-|].
  split; [vm_compute in Hd'; by injection Hd' as <-|].
  split; [exact Hrem|exact Hstatus].
Defined.

(** X19 at work: a first message with no chat_id, in November. *)
Lemma post_chat_default_session_november :
  truthy (anonymous_chat !! "chat_id") = false ∧
  session_name november anonymous_chat = "1793620800000" ∧
  (post_chat november true ollama_up anonymous_chat two_contracts).1
    = Ok (ChatP (Some (VStr "You have two contracts."))
            (VStr "1793620800000") "2026-11-02T12:00:00.000Z").
Proof.
  assert (Hfalsy : truthy (anonymous_chat !! "chat_id") = false)
    by (vm_compute; reflexivity).
  split; [exact Hfalsy|].
  destruct (post_chat_default_session november ollama_up anonymous_chat
              two_contracts (Some (VStr "You have two contracts.")) Hfalsy)
    as (Hname & Hpost & _).
  - reflexivity.
  - split; [rewrite Hname; vm_compute; reflexivity|].
    rewrite Hpost. reflexivity.
Defined.
